(** * The Sinowealth gaming-mouse driver of libratbag, embedded in Rocq

    Source: [src/driver-sinowealth.c].  The driver converts between the
    packed configuration report of the mouse firmware and the generic
    profile of libratbag (resolutions and LEDs).  The C code is embedded
    function by function: machine integers are [Z] with the conversions of
    C written out, the packed struct is a record together with its byte
    image, arrays are lists read with [!!!] and written with [<[i:=x]>],
    and the loops over the resolutions and LEDs of the profile are folds
    and maps over lists. *)

From Stdlib Require Import ZArith Lia List Bool.
From stdpp Require Import base numbers list.
Import ListNotations.

Local Open Scope Z_scope.

(** ** Machine integers

    The target is an LP64 Linux: [int] and [unsigned int] have 32 bits,
    [size_t] has 64 bits, [uint8_t] has 8 bits.  A conversion to an unsigned
    type reduces modulo the width; a conversion to [int] wraps around. *)

Definition to_uint8 (z : Z) : Z := z mod 2 ^ 8.
Definition to_uint (z : Z) : Z := z mod 2 ^ 32.
Definition to_size_t (z : Z) : Z := z mod 2 ^ 64.
Definition to_int (z : Z) : Z := (z + 2 ^ 31) mod 2 ^ 32 - 2 ^ 31.

Definition is_byte (z : Z) : Prop := 0 <= z < 256.

(** ** Constants of the driver *)

Definition SINOWEALTH_REPORT_ID_CONFIG : Z := 0x4.
Definition SINOWEALTH_REPORT_ID_CMD : Z := 0x5.
Definition SINOWEALTH_CMD_FIRMWARE_VERSION : Z := 0x1.
Definition SINOWEALTH_CMD_GET_CONFIG : Z := 0x11.
Definition SINOWEALTH_CONFIG_SIZE : Z := 520.

Definition SINOWEALTH_XY_INDEPENDENT : Z := 0x80.

Definition SINOWEALTH_DPI_MIN : Z := 100.
Definition SINOWEALTH_DPI_MAX : Z := 12000.
Definition SINOWEALTH_DPI_STEP : Z := 100.

Definition SINOWEALTH_NUM_DPIS : nat := 6.

(** [enum rgb_effect] *)
Definition RGB_OFF : Z := 0.
Definition RGB_GLORIOUS : Z := 0x1.
Definition RGB_SINGLE : Z := 0x2.
Definition RGB_BREATHING : Z := 0x5.
Definition RGB_BREATHING7 : Z := 0x3.
Definition RGB_BREATHING1 : Z := 0xa.
Definition RGB_TAIL : Z := 0x4.
Definition RGB_RAVE : Z := 0x7.
Definition RGB_WAVE : Z := 0x9.

(** ** The packed configuration report *)

Record RGB8 := mkRGB8 { r : Z; g : Z; b : Z }.

#[global] Instance RGB8_inhabited : Inhabited RGB8 := populate (mkRGB8 0 0 0).

Record sinowealth_config_report := mkConfig {
  report_id : Z;
  command_id : Z;
  unk1 : Z;
  config_write : Z;
  unk2 : list Z;                  (* uint8_t unk2[6] *)
  config : Z;
  dpi_count : Z;                  (* uint8_t dpi_count:4 *)
  active_dpi : Z;                 (* uint8_t active_dpi:4 *)
  dpi_enabled : Z;
  dpi : list Z;                   (* uint8_t dpi[16] *)
  dpi_color : list RGB8;          (* RGB8 dpi_color[8] *)
  rgb_effect : Z;
  glorious_mode : Z;
  glorious_direction : Z;
  single_color : RGB8;
  breathing_mode : Z;
  breathing_colorcount : Z;
  breathing_colors : list RGB8;   (* RGB8 breathing_colors[7] *)
  tail_mode : Z;
  rave_mode : Z;
  rave_colors : list RGB8;        (* RGB8 rave_colors[2] *)
  wave_mode : Z;
  breathing1_mode : Z;
  breathing1_color : RGB8;
  unk4 : Z;
  lift_off_distance : Z
}.

(** The array fields have the lengths of their C declarations. *)
Definition wf_config (c : sinowealth_config_report) : Prop :=
  length (unk2 c) = 6%nat /\ length (dpi c) = 16%nat /\
  length (dpi_color c) = 8%nat /\ length (breathing_colors c) = 7%nat /\
  length (rave_colors c) = 2%nat.

(** Assignments to single fields ([config->field = v]). *)

Definition set_config_write (v : Z) (c : sinowealth_config_report) :=
  mkConfig (report_id c) (command_id c) (unk1 c) v (unk2 c) (config c)
    (dpi_count c) (active_dpi c) (dpi_enabled c) (dpi c) (dpi_color c)
    (rgb_effect c) (glorious_mode c) (glorious_direction c) (single_color c)
    (breathing_mode c) (breathing_colorcount c) (breathing_colors c)
    (tail_mode c) (rave_mode c) (rave_colors c) (wave_mode c)
    (breathing1_mode c) (breathing1_color c) (unk4 c) (lift_off_distance c).

Definition set_config (v : Z) (c : sinowealth_config_report) :=
  mkConfig (report_id c) (command_id c) (unk1 c) (config_write c) (unk2 c) v
    (dpi_count c) (active_dpi c) (dpi_enabled c) (dpi c) (dpi_color c)
    (rgb_effect c) (glorious_mode c) (glorious_direction c) (single_color c)
    (breathing_mode c) (breathing_colorcount c) (breathing_colors c)
    (tail_mode c) (rave_mode c) (rave_colors c) (wave_mode c)
    (breathing1_mode c) (breathing1_color c) (unk4 c) (lift_off_distance c).

Definition set_dpi_enabled (v : Z) (c : sinowealth_config_report) :=
  mkConfig (report_id c) (command_id c) (unk1 c) (config_write c) (unk2 c)
    (config c) (dpi_count c) (active_dpi c) v (dpi c) (dpi_color c)
    (rgb_effect c) (glorious_mode c) (glorious_direction c) (single_color c)
    (breathing_mode c) (breathing_colorcount c) (breathing_colors c)
    (tail_mode c) (rave_mode c) (rave_colors c) (wave_mode c)
    (breathing1_mode c) (breathing1_color c) (unk4 c) (lift_off_distance c).

Definition set_dpi (v : list Z) (c : sinowealth_config_report) :=
  mkConfig (report_id c) (command_id c) (unk1 c) (config_write c) (unk2 c)
    (config c) (dpi_count c) (active_dpi c) (dpi_enabled c) v (dpi_color c)
    (rgb_effect c) (glorious_mode c) (glorious_direction c) (single_color c)
    (breathing_mode c) (breathing_colorcount c) (breathing_colors c)
    (tail_mode c) (rave_mode c) (rave_colors c) (wave_mode c)
    (breathing1_mode c) (breathing1_color c) (unk4 c) (lift_off_distance c).

Definition set_dpi_color (v : list RGB8) (c : sinowealth_config_report) :=
  mkConfig (report_id c) (command_id c) (unk1 c) (config_write c) (unk2 c)
    (config c) (dpi_count c) (active_dpi c) (dpi_enabled c) (dpi c) v
    (rgb_effect c) (glorious_mode c) (glorious_direction c) (single_color c)
    (breathing_mode c) (breathing_colorcount c) (breathing_colors c)
    (tail_mode c) (rave_mode c) (rave_colors c) (wave_mode c)
    (breathing1_mode c) (breathing1_color c) (unk4 c) (lift_off_distance c).

Definition set_rgb_effect (v : Z) (c : sinowealth_config_report) :=
  mkConfig (report_id c) (command_id c) (unk1 c) (config_write c) (unk2 c)
    (config c) (dpi_count c) (active_dpi c) (dpi_enabled c) (dpi c)
    (dpi_color c) v (glorious_mode c) (glorious_direction c) (single_color c)
    (breathing_mode c) (breathing_colorcount c) (breathing_colors c)
    (tail_mode c) (rave_mode c) (rave_colors c) (wave_mode c)
    (breathing1_mode c) (breathing1_color c) (unk4 c) (lift_off_distance c).

Definition set_single_color (v : RGB8) (c : sinowealth_config_report) :=
  mkConfig (report_id c) (command_id c) (unk1 c) (config_write c) (unk2 c)
    (config c) (dpi_count c) (active_dpi c) (dpi_enabled c) (dpi c)
    (dpi_color c) (rgb_effect c) (glorious_mode c) (glorious_direction c) v
    (breathing_mode c) (breathing_colorcount c) (breathing_colors c)
    (tail_mode c) (rave_mode c) (rave_colors c) (wave_mode c)
    (breathing1_mode c) (breathing1_color c) (unk4 c) (lift_off_distance c).

Definition set_breathing1_color (v : RGB8) (c : sinowealth_config_report) :=
  mkConfig (report_id c) (command_id c) (unk1 c) (config_write c) (unk2 c)
    (config c) (dpi_count c) (active_dpi c) (dpi_enabled c) (dpi c)
    (dpi_color c) (rgb_effect c) (glorious_mode c) (glorious_direction c)
    (single_color c) (breathing_mode c) (breathing_colorcount c)
    (breathing_colors c) (tail_mode c) (rave_mode c) (rave_colors c)
    (wave_mode c) (breathing1_mode c) v (unk4 c) (lift_off_distance c).

(** *** The byte image of the struct

    [struct sinowealth_config_report] is [__attribute__((packed))]: the
    fields follow each other without padding, in declaration order.  The two
    4-bit fields share the byte at offset 11; GCC on a little-endian target
    puts the first declared one, [dpi_count], in the low nibble. *)

Definition RGB8_bytes (c : RGB8) : list Z := [r c; g c; b c].

Definition config_bytes (c : sinowealth_config_report) : list Z :=
  [report_id c; command_id c; unk1 c; config_write c] ++ unk2 c ++
  [config c; Z.lor (Z.land (dpi_count c) 0xF) (Z.shiftl (Z.land (active_dpi c) 0xF) 4);
   dpi_enabled c] ++ dpi c ++ concat (map RGB8_bytes (dpi_color c)) ++
  [rgb_effect c; glorious_mode c; glorious_direction c] ++
  RGB8_bytes (single_color c) ++
  [breathing_mode c; breathing_colorcount c] ++
  concat (map RGB8_bytes (breathing_colors c)) ++
  [tail_mode c; rave_mode c] ++ concat (map RGB8_bytes (rave_colors c)) ++
  [wave_mode c; breathing1_mode c] ++ RGB8_bytes (breathing1_color c) ++
  [unk4 c; lift_off_distance c].

(** [sizeof(struct sinowealth_config_report)] *)
Definition sizeof_config : Z := 97.

Definition RGB8_at (data : list Z) (off : nat) : RGB8 :=
  mkRGB8 (data !!! off) (data !!! S off) (data !!! S (S off)).

Definition RGB8_array_at (data : list Z) (off n : nat) : list RGB8 :=
  map (fun i => RGB8_at data (off + 3 * i)) (seq 0 n).

(** The struct whose byte image is the first 97 bytes of [data]. *)
Definition config_of_bytes (data : list Z) : sinowealth_config_report :=
  {| report_id := data !!! 0%nat;
     command_id := data !!! 1%nat;
     unk1 := data !!! 2%nat;
     config_write := data !!! 3%nat;
     unk2 := take 6 (drop 4 data);
     config := data !!! 10%nat;
     dpi_count := Z.land (data !!! 11%nat) 0xF;
     active_dpi := Z.land (Z.shiftr (data !!! 11%nat) 4) 0xF;
     dpi_enabled := data !!! 12%nat;
     dpi := take 16 (drop 13 data);
     dpi_color := RGB8_array_at data 29 8;
     rgb_effect := data !!! 53%nat;
     glorious_mode := data !!! 54%nat;
     glorious_direction := data !!! 55%nat;
     single_color := RGB8_at data 56;
     breathing_mode := data !!! 59%nat;
     breathing_colorcount := data !!! 60%nat;
     breathing_colors := RGB8_array_at data 61 7;
     tail_mode := data !!! 82%nat;
     rave_mode := data !!! 83%nat;
     rave_colors := RGB8_array_at data 84 2;
     wave_mode := data !!! 90%nat;
     breathing1_mode := data !!! 91%nat;
     breathing1_color := RGB8_at data 92;
     unk4 := data !!! 95%nat;
     lift_off_distance := data !!! 96%nat |}.

(** Packing two 4-bit fields into the byte at offset 11 and taking them
    out again gives them back, and the packed value is a byte. *)
Definition nibbles_ok (dc ad : Z) : bool :=
  let packed := Z.lor (Z.land dc 0xF) (Z.shiftl (Z.land ad 0xF) 4) in
  (Z.land packed 0xF =? dc) && (Z.land (Z.shiftr packed 4) 0xF =? ad) &&
  (0 <=? packed) && (packed <? 256).

(** [zalloc(n)]: a buffer of [n] zero bytes. *)
Definition zalloc (n : Z) : list Z := replicate (Z.to_nat n) 0.

(** [memcpy(dst, src, n)] seen from [dst]. *)
Definition memcpy (dst src : list Z) (n : Z) : list Z :=
  take (Z.to_nat n) src ++ drop (Z.to_nat n) dst.

(** ** NumericCodec *)

Definition sinowealth_raw_to_dpi (raw : Z) : Z := to_int ((raw + 1) * 100).

(** [/] of C truncates towards zero: [Z.quot]. *)
Definition sinowealth_dpi_to_raw (dpi : Z) : Z := to_int (Z.quot dpi 100 - 1).

(** ** The generic profile of libratbag *)

(** Modelled from the spec: the types of the profile store (declared in
    [libratbag-private.h], which is not part of the driver file).  A
    GenericProfile is a set of resolutions ([dpi_x], [dpi_y], [is_active],
    [is_default], capability flags) and of LEDs (type, mode in off, on,
    cycle, breathing, color, supported-mode set); the numeric fields are
    [unsigned int] in C. *)
Record ratbag_color := mkColor { red : Z; green : Z; blue : Z }.

Inductive ratbag_led_mode :=
  | RATBAG_LED_OFF
  | RATBAG_LED_ON
  | RATBAG_LED_CYCLE
  | RATBAG_LED_BREATHING.

Inductive ratbag_led_type :=
  | RATBAG_LED_TYPE_LOGO
  | RATBAG_LED_TYPE_SIDE
  | RATBAG_LED_TYPE_DPI.

Inductive ratbag_led_colordepth :=
  | RATBAG_LED_COLORDEPTH_MONOCHROME
  | RATBAG_LED_COLORDEPTH_RGB_888.

Inductive ratbag_resolution_capability :=
  | RATBAG_RESOLUTION_CAP_SEPARATE_XY_RESOLUTION.

Record ratbag_led := mkLed {
  led_type : ratbag_led_type;
  colordepth : ratbag_led_colordepth;
  mode : ratbag_led_mode;
  color : ratbag_color;
  modes : list ratbag_led_mode
}.

Record ratbag_resolution := mkResolution {
  index : nat;
  dpi_x : Z;
  dpi_y : Z;
  is_active : bool;
  is_default : bool;
  dpis : list Z;
  capabilities : list ratbag_resolution_capability
}.

Record ratbag_profile := mkProfile {
  resolutions : list ratbag_resolution;
  leds : list ratbag_led;
  report_rates : list Z;
  report_rate : Z;
  profile_is_active : bool
}.

(** Modelled from the spec: the transport collaborator (the hidraw layer
    is not part of the driver file).  [setFeatureReport(reportId, bytes)]
    gives the number of bytes written or a negative error;
    [getFeatureReport(reportId, buffer)] gives the number of bytes read or a
    negative error, and the buffer as the device filled it. *)
Record ratbag_device := mkDevice {
  ratbag_hidraw_set_feature_report : Z -> list Z -> Z;
  ratbag_hidraw_get_feature_report : Z -> list Z -> Z * list Z
}.

(** Modelled from the spec: [ratbag_device_init_profiles(device, 1,
    SINOWEALTH_NUM_DPIS, 0, SINOWEALTH_NUM_DPIS + 1)] of [sinowealth_probe]
    gives one profile with six resolutions, numbered from 0 in the order of
    iteration, and seven LEDs. *)
Definition wf_resolutions (rs : list ratbag_resolution) : Prop :=
  map index rs = seq 0 (length rs).

Definition wf_profile (p : ratbag_profile) : Prop :=
  length (resolutions p) = SINOWEALTH_NUM_DPIS /\
  wf_resolutions (resolutions p) /\
  length (leds p) = S SINOWEALTH_NUM_DPIS.

(** Field assignments on the profile store. *)

Definition set_dpi_xy (x y : Z) (res : ratbag_resolution) :=
  mkResolution (index res) x y (is_active res) (is_default res) (dpis res)
    (capabilities res).

Definition set_is_active (a : bool) (res : ratbag_resolution) :=
  mkResolution (index res) (dpi_x res) (dpi_y res) a (is_default res)
    (dpis res) (capabilities res).

Definition set_is_default (d : bool) (res : ratbag_resolution) :=
  mkResolution (index res) (dpi_x res) (dpi_y res) (is_active res) d
    (dpis res) (capabilities res).

Definition ratbag_resolution_set_dpi_list (l : list Z) (res : ratbag_resolution) :=
  mkResolution (index res) (dpi_x res) (dpi_y res) (is_active res)
    (is_default res) l (capabilities res).

Definition ratbag_resolution_set_cap (c : ratbag_resolution_capability)
    (res : ratbag_resolution) :=
  mkResolution (index res) (dpi_x res) (dpi_y res) (is_active res)
    (is_default res) (dpis res) (c :: capabilities res).

Definition set_led_type (t : ratbag_led_type) (led : ratbag_led) :=
  mkLed t (colordepth led) (mode led) (color led) (modes led).

Definition set_colordepth (d : ratbag_led_colordepth) (led : ratbag_led) :=
  mkLed (led_type led) d (mode led) (color led) (modes led).

Definition set_mode (m : ratbag_led_mode) (led : ratbag_led) :=
  mkLed (led_type led) (colordepth led) m (color led) (modes led).

Definition set_color (c : ratbag_color) (led : ratbag_led) :=
  mkLed (led_type led) (colordepth led) (mode led) c (modes led).

Definition ratbag_led_set_mode_capability (m : ratbag_led_mode) (led : ratbag_led) :=
  mkLed (led_type led) (colordepth led) (mode led) (color led) (m :: modes led).

Definition set_resolutions (rs : list ratbag_resolution) (p : ratbag_profile) :=
  mkProfile rs (leds p) (report_rates p) (report_rate p) (profile_is_active p).

Definition set_leds (ls : list ratbag_led) (p : ratbag_profile) :=
  mkProfile (resolutions p) ls (report_rates p) (report_rate p)
    (profile_is_active p).

Definition ratbag_profile_set_report_rate_list (l : list Z) (p : ratbag_profile) :=
  mkProfile (resolutions p) (leds p) l (report_rate p) (profile_is_active p).

Definition ratbag_profile_set_report_rate (hz : Z) (p : ratbag_profile) :=
  mkProfile (resolutions p) (leds p) (report_rates p) hz (profile_is_active p).

Definition set_profile_is_active (a : bool) (p : ratbag_profile) :=
  mkProfile (resolutions p) (leds p) (report_rates p) (report_rate p) a.

(** [led = ratbag_profile_get_led(profile, i); ...; ratbag_led_unref(led)]:
    the LED is changed in place.  The seven LEDs exist in every profile the
    driver sets up; an absent one is left alone here. *)
Definition with_led (i : nat) (f : ratbag_led -> ratbag_led)
    (p : ratbag_profile) : ratbag_profile :=
  set_leds (alter f i (leds p)) p.

(** ** Colors *)

Definition sinowealth_raw_to_color (raw : RGB8) : ratbag_color :=
  {| red := r raw; green := g raw; blue := b raw |}.

Definition sinowealth_color_to_raw (c : ratbag_color) : RGB8 :=
  {| r := to_uint8 (red c); g := to_uint8 (green c); b := to_uint8 (blue c) |}.

(** ** [sinowealth_read_profile] *)

Definition num_dpis : Z :=
  Z.quot (SINOWEALTH_DPI_MAX - SINOWEALTH_DPI_MIN) SINOWEALTH_DPI_STEP + 1 + 1.

(** Lines 198-202: [dpis[0] = 0; for (i = 1; i < num_dpis; i++) dpis[i] =
    SINOWEALTH_DPI_MIN + i * SINOWEALTH_DPI_STEP]. *)
Definition generate_dpi_list : list Z :=
  foldl (fun dpis i =>
           <[i := to_uint (SINOWEALTH_DPI_MIN + Z.of_nat i * SINOWEALTH_DPI_STEP)]> dpis)
        (<[0%nat := 0]> (replicate (Z.to_nat num_dpis) 0))
        (seq 1 (Z.to_nat num_dpis - 1)).

(** A C condition [if (e)] holds when [e] is not zero. *)
Definition truthy (z : Z) : bool := negb (z =? 0).

(** Lines 205-211: the DPI of the slot from the raw bytes. *)
Definition read_resolution_dpi (cfg : sinowealth_config_report)
    (res : ratbag_resolution) : ratbag_resolution :=
  if truthy (Z.land (config cfg) SINOWEALTH_XY_INDEPENDENT) then
    set_dpi_xy (to_uint (sinowealth_raw_to_dpi (dpi cfg !!! (index res * 2)%nat)))
               (to_uint (sinowealth_raw_to_dpi (dpi cfg !!! (index res * 2 + 1)%nat)))
               res
  else
    let x := to_uint (sinowealth_raw_to_dpi (dpi cfg !!! index res)) in
    set_dpi_xy x x res.

(** Lines 212-216: a disabled step is shown as 0 DPI. *)
Definition read_resolution_disabled (cfg : sinowealth_config_report)
    (res : ratbag_resolution) : ratbag_resolution :=
  if truthy (Z.land (dpi_enabled cfg) (to_int (Z.shiftl 1 (Z.of_nat (index res))))) then
    set_dpi_xy 0 0 res
  else res.

(** Lines 217-220.  [resolution->index] is unsigned, so the [int]
    [config->active_dpi - 1] is converted to [unsigned] for the comparison. *)
Definition read_resolution_flags (cfg : sinowealth_config_report)
    (dpis : list Z) (res : ratbag_resolution) : ratbag_resolution :=
  let res := set_is_active (Z.of_nat (index res) =? to_uint (active_dpi cfg - 1)) res in
  let res := set_is_default (is_active res) res in
  let res := ratbag_resolution_set_dpi_list dpis res in
  ratbag_resolution_set_cap RATBAG_RESOLUTION_CAP_SEPARATE_XY_RESOLUTION res.

(** The body of [ratbag_profile_for_each_resolution], lines 204-221. *)
Definition read_resolution (cfg : sinowealth_config_report) (dpis : list Z)
    (res : ratbag_resolution) : ratbag_resolution :=
  read_resolution_flags cfg dpis
    (read_resolution_disabled cfg (read_resolution_dpi cfg res)).

(** Lines 232-252: the switch over [config->rgb_effect]; an effect that is
    no case of the switch leaves the LED as it is. *)
Definition read_body_effect (cfg : sinowealth_config_report)
    (led : ratbag_led) : ratbag_led :=
  let e := rgb_effect cfg in
  if e =? RGB_OFF then set_mode RATBAG_LED_OFF led
  else if e =? RGB_SINGLE then
    set_color (sinowealth_raw_to_color (single_color cfg)) (set_mode RATBAG_LED_ON led)
  else if (e =? RGB_GLORIOUS) || (e =? RGB_BREATHING) || (e =? RGB_BREATHING7)
          || (e =? RGB_TAIL) || (e =? RGB_RAVE) || (e =? RGB_WAVE) then
    set_mode RATBAG_LED_CYCLE led
  else if e =? RGB_BREATHING1 then
    set_color (sinowealth_raw_to_color (breathing1_color cfg))
      (set_mode RATBAG_LED_BREATHING led)
  else led.

(** Lines 224-253: the body LED. *)
Definition read_body_led (cfg : sinowealth_config_report)
    (led : ratbag_led) : ratbag_led :=
  let led := set_led_type RATBAG_LED_TYPE_SIDE led in
  let led := set_colordepth RATBAG_LED_COLORDEPTH_RGB_888 led in
  let led := ratbag_led_set_mode_capability RATBAG_LED_OFF led in
  let led := ratbag_led_set_mode_capability RATBAG_LED_ON led in
  let led := ratbag_led_set_mode_capability RATBAG_LED_CYCLE led in
  let led := ratbag_led_set_mode_capability RATBAG_LED_BREATHING led in
  read_body_effect cfg led.

(** Lines 256-264: the DPI indicator LED [i], for [i] from 1 to 6. *)
Definition read_dpi_led (cfg : sinowealth_config_report) (i : nat)
    (led : ratbag_led) : ratbag_led :=
  let led := set_led_type RATBAG_LED_TYPE_DPI led in
  let led := set_colordepth RATBAG_LED_COLORDEPTH_RGB_888 led in
  let led := set_mode RATBAG_LED_ON led in
  let led := set_color (sinowealth_raw_to_color (dpi_color cfg !!! (i - 1)%nat)) led in
  ratbag_led_set_mode_capability RATBAG_LED_ON led.

(** Lines 194-266: the profile filled from the configuration. *)
Definition read_profile_from_config (cfg : sinowealth_config_report)
    (profile : ratbag_profile) : ratbag_profile :=
  let hz := 1000 in
  let profile := ratbag_profile_set_report_rate_list [hz] profile in
  let profile := ratbag_profile_set_report_rate hz profile in
  let dpis := generate_dpi_list in
  let profile := set_resolutions (map (read_resolution cfg dpis) (resolutions profile)) profile in
  let profile := with_led 0 (read_body_led cfg) profile in
  let profile := foldl (fun p i => with_led i (read_dpi_led cfg i) p) profile
                       (seq 1 SINOWEALTH_NUM_DPIS) in
  set_profile_is_active true profile.

(** The result of a driver entry point: the [int] it returns, the
    configuration kept in [drv_data], and the profile. *)
Record read_result := mkRead {
  read_rc : Z;
  read_config : sinowealth_config_report;
  read_profile : ratbag_profile
}.

(** [sinowealth_read_profile].  In [rc != sizeof(cmd)] and
    [rc < sizeof config] the [int] [rc] meets a [size_t]; the usual
    arithmetic conversions turn [rc] into a [size_t] first. *)
Definition sinowealth_read_profile (device : ratbag_device)
    (drv_config : sinowealth_config_report) (profile : ratbag_profile)
    : read_result :=
  let cmd := [SINOWEALTH_REPORT_ID_CMD; SINOWEALTH_CMD_GET_CONFIG; 0; 0; 0; 0] in
  let rc := ratbag_hidraw_set_feature_report device SINOWEALTH_REPORT_ID_CMD cmd in
  if negb (to_size_t rc =? Z.of_nat (length cmd)) then mkRead (-1) drv_config profile
  else
    let data := zalloc SINOWEALTH_CONFIG_SIZE in
    let '(rc, data) :=
      ratbag_hidraw_get_feature_report device SINOWEALTH_REPORT_ID_CONFIG data in
    if to_size_t rc <? sizeof_config then mkRead (-1) drv_config profile
    else
      let cfg := config_of_bytes data in
      mkRead 0 cfg (read_profile_from_config cfg profile).

(** ** [sinowealth_commit] *)

(** The condition of line 323 and of line 337. *)
Definition xy_differ (res : ratbag_resolution) : bool :=
  negb (dpi_x res =? dpi_y res) && truthy (dpi_x res) && truthy (dpi_y res).

Definition slot_enabled (res : ratbag_resolution) : bool :=
  truthy (dpi_x res) && truthy (dpi_y res).

(** Lines 322-327: the loop that ends at the first resolution with two
    different nonzero DPIs, after [config->config &= SINOWEALTH_XY_INDEPENDENT]. *)
Fixpoint commit_xy_scan (cfg : sinowealth_config_report)
    (rs : list ratbag_resolution) : sinowealth_config_report :=
  match rs with
  | [] => cfg
  | res :: rs' =>
      if xy_differ res then
        set_config (to_uint8 (Z.land (config cfg) SINOWEALTH_XY_INDEPENDENT)) cfg
      else commit_xy_scan cfg rs'
  end.

(** Lines 321-327. *)
Definition commit_xy_independent (cfg : sinowealth_config_report)
    (profile : ratbag_profile) : sinowealth_config_report :=
  let cfg :=
    set_config (to_uint8 (Z.land (config cfg) (Z.lnot SINOWEALTH_XY_INDEPENDENT))) cfg in
  commit_xy_scan cfg (resolutions profile).

(** The value a C assignment stores into a [uint8_t] cell of [dpi]: the
    [unsigned int] DPI becomes the [int] argument, the [int] result is cut
    to eight bits. *)
Definition raw_dpi_byte (dpi_value : Z) : Z :=
  to_uint8 (sinowealth_dpi_to_raw (to_int dpi_value)).

(** Lines 331-340, the body of the second loop. *)
Definition commit_resolution (cfg : sinowealth_config_report)
    (res : ratbag_resolution) : sinowealth_config_report :=
  let cfg :=
    if truthy (Z.land (config cfg) SINOWEALTH_XY_INDEPENDENT) then
      let cfg := set_dpi (<[(index res * 2)%nat := raw_dpi_byte (dpi_x res)]> (dpi cfg)) cfg in
      set_dpi (<[(index res * 2 + 1)%nat := raw_dpi_byte (dpi_y res)]> (dpi cfg)) cfg
    else
      set_dpi (<[index res := raw_dpi_byte (dpi_x res)]> (dpi cfg)) cfg in
  if slot_enabled res then
    set_dpi_enabled
      (to_uint8 (Z.land (dpi_enabled cfg)
                        (Z.lnot (to_int (Z.shiftl 1 (Z.of_nat (index res))))))) cfg
  else cfg.

(** Lines 329-341. *)
Definition commit_resolutions (cfg : sinowealth_config_report)
    (profile : ratbag_profile) : sinowealth_config_report :=
  foldl commit_resolution (set_dpi_enabled 0xFF cfg) (resolutions profile).

(** Lines 345-360: the switch over the mode of the body LED. *)
Definition commit_body_effect (cfg : sinowealth_config_report)
    (led : ratbag_led) : sinowealth_config_report :=
  match mode led with
  | RATBAG_LED_OFF => set_rgb_effect RGB_OFF cfg
  | RATBAG_LED_ON =>
      set_single_color (sinowealth_color_to_raw (color led))
        (set_rgb_effect RGB_SINGLE cfg)
  | RATBAG_LED_CYCLE => set_rgb_effect RGB_GLORIOUS cfg
  | RATBAG_LED_BREATHING =>
      set_breathing1_color (sinowealth_color_to_raw (color led))
        (set_rgb_effect RGB_BREATHING1 cfg)
  end.

Definition ratbag_profile_get_led (profile : ratbag_profile) (i : nat)
    : option ratbag_led :=
  leds profile !! i.

(** Lines 344-361. *)
Definition commit_body_led (cfg : sinowealth_config_report)
    (profile : ratbag_profile) : sinowealth_config_report :=
  match ratbag_profile_get_led profile 0 with
  | Some led => commit_body_effect cfg led
  | None => cfg
  end.

(** Lines 364-368: the colors of the DPI indicator LEDs. *)
Definition commit_dpi_led (profile : ratbag_profile)
    (cfg : sinowealth_config_report) (i : nat) : sinowealth_config_report :=
  match ratbag_profile_get_led profile i with
  | Some led =>
      set_dpi_color (<[(i - 1)%nat := sinowealth_color_to_raw (color led)]> (dpi_color cfg)) cfg
  | None => cfg
  end.

Definition commit_dpi_leds (cfg : sinowealth_config_report)
    (profile : ratbag_profile) : sinowealth_config_report :=
  foldl (commit_dpi_led profile) cfg (seq 1 SINOWEALTH_NUM_DPIS).

(** Lines 321-370: the configuration derived from the profile. *)
Definition commit_config (cfg : sinowealth_config_report)
    (profile : ratbag_profile) : sinowealth_config_report :=
  let cfg := commit_xy_independent cfg profile in
  let cfg := commit_resolutions cfg profile in
  let cfg := commit_body_led cfg profile in
  let cfg := commit_dpi_leds cfg profile in
  set_config_write 0x7b cfg.

(** Lines 372-373: the buffer handed to the transport. *)
Definition commit_data (cfg : sinowealth_config_report) : list Z :=
  memcpy (zalloc SINOWEALTH_CONFIG_SIZE) (config_bytes cfg) sizeof_config.

(** The result of [sinowealth_commit]: the [int] it returns, the
    configuration kept in [drv_data], and the feature report it wrote. *)
Record commit_result := mkCommit {
  commit_rc : Z;
  commit_drv_config : sinowealth_config_report;
  commit_report_id : Z;
  commit_sent : list Z
}.

Definition sinowealth_commit (device : ratbag_device)
    (drv_config : sinowealth_config_report) (profile : ratbag_profile)
    : commit_result :=
  let cfg := commit_config drv_config profile in
  let data := commit_data cfg in
  let rc := ratbag_hidraw_set_feature_report device SINOWEALTH_REPORT_ID_CONFIG data in
  if negb (rc =? SINOWEALTH_CONFIG_SIZE)
  then mkCommit (-1) cfg SINOWEALTH_REPORT_ID_CONFIG data
  else mkCommit 0 cfg SINOWEALTH_REPORT_ID_CONFIG data.

(** ** [sinowealth_probe] *)

(** [ENODEV] of [errno.h]. *)
Definition ENODEV : Z := 19.

(** The result of [sinowealth_probe]: the [int] it returns, the driver data
    of the device ([None] for the null pointer) and profile 0 once
    [ratbag_device_init_profiles] has made it. *)
Record probe_result := mkProbe {
  probe_rc : Z;
  probe_drv_data : option sinowealth_config_report;
  probe_profile : option ratbag_profile
}.

(** [sinowealth_probe].  Two values come from the framework and are taken
    as arguments: [find_rc], what [ratbag_find_hidraw(device,
    sinowealth_test_hidraw)] returns, and [profile], the profile 0 that
    [ratbag_device_init_profiles] creates.  The driver data is zeroed by
    [zalloc]; the [err] path frees it and stores the null pointer. *)
Definition sinowealth_probe (find_rc : Z) (device : ratbag_device)
    (profile : ratbag_profile) : probe_result :=
  if truthy find_rc then mkProbe find_rc None None
  else
    let drv_data := config_of_bytes (zalloc sizeof_config) in
    let result := sinowealth_read_profile device drv_data profile in
    if truthy (read_rc result)
    then mkProbe (- ENODEV) None (Some (read_profile result))
    else mkProbe 0 (Some (read_config result)) (Some (read_profile result)).

(** ** Sample data *)

Definition black : ratbag_color := mkColor 0 0 0.

Definition blank_led : ratbag_led :=
  mkLed RATBAG_LED_TYPE_LOGO RATBAG_LED_COLORDEPTH_MONOCHROME RATBAG_LED_OFF black [].

Definition blank_resolution (i : nat) : ratbag_resolution :=
  mkResolution i 0 0 false false [] [].

(** The profile as [ratbag_device_init_profiles] leaves it. *)
Definition blank_profile : ratbag_profile :=
  mkProfile (map blank_resolution (seq 0 SINOWEALTH_NUM_DPIS))
            (replicate (S SINOWEALTH_NUM_DPIS) blank_led) [] 0 false.

(** A profile with the given (dpi_x, dpi_y) pairs in its first slots. *)
Definition profile_with_dpis (xy : list (Z * Z)) : ratbag_profile :=
  set_resolutions
    (imap (fun i res => match xy !! i with
                        | Some (x, y) => set_dpi_xy x y res
                        | None => res
                        end) (resolutions blank_profile))
    blank_profile.

(** The configuration of a zeroed [drv_data]. *)
Definition zero_config : sinowealth_config_report :=
  config_of_bytes (zalloc SINOWEALTH_CONFIG_SIZE).

(** A device that accepts every write in full and answers a read with
    [rc] and the buffer [data]. *)
Definition device_answering (rc : Z) (data : list Z) : ratbag_device :=
  {| ratbag_hidraw_set_feature_report := fun _ buf => Z.of_nat (length buf);
     ratbag_hidraw_get_feature_report := fun _ _ => (rc, data) |}.

(** A device on which writes return [rc]. *)
Definition device_writing (rc : Z) : ratbag_device :=
  {| ratbag_hidraw_set_feature_report := fun _ _ => rc;
     ratbag_hidraw_get_feature_report := fun _ buf => (Z.of_nat (length buf), buf) |}.

(** A 520-byte report as the device sends it: two DPI slots in use (800
    and 1600 DPI, shared between X and Y), slots 2 to 5 disabled, slot 1 of
    the wire active, a constant red body light. *)
Definition sample_report : list Z :=
  <[11%nat := 0x12]> (<[12%nat := 0x3C]> (<[13%nat := 7]> (<[14%nat := 15]>
  (<[53%nat := RGB_SINGLE]> (<[56%nat := 255]> (zalloc SINOWEALTH_CONFIG_SIZE)))))).

(** The same report in XY-independent mode: slot 0 is 800 x 400 DPI. *)
Definition sample_report_xy : list Z :=
  <[10%nat := SINOWEALTH_XY_INDEPENDENT]> (<[14%nat := 3]> sample_report).

(** The same report with the WAVE effect. *)
Definition sample_report_wave : list Z := <[53%nat := RGB_WAVE]> sample_report.

Definition sample_read (data : list Z) : read_result :=
  sinowealth_read_profile (device_answering SINOWEALTH_CONFIG_SIZE data)
    zero_config blank_profile.

(** A profile whose first LEDs have the given modes and colors. *)
Definition profile_with_leds (mc : list (ratbag_led_mode * ratbag_color))
    : ratbag_profile :=
  set_leds
    (imap (fun i led => match mc !! i with
                        | Some (m, c) => set_color c (set_mode m led)
                        | None => led
                        end) (leds blank_profile))
    blank_profile.

(** A breathing body light and two DPI indicators, with colors that are
    not black; the red channel of the body color does not fit a byte. *)
Definition sample_leds : list (ratbag_led_mode * ratbag_color) :=
  [(RATBAG_LED_BREATHING, mkColor 300 128 7);
   (RATBAG_LED_ON, mkColor 255 128 0);
   (RATBAG_LED_ON, mkColor 513 2 3)].

(** The sample report with the color (255, 128, 7) for DPI slot 0 and a
    red channel of 9 in the unused cell [dpi_color[6]]. *)
Definition sample_report_colors : list Z :=
  <[29%nat := 255]> (<[30%nat := 128]> (<[31%nat := 7]> (<[47%nat := 9]> sample_report))).

(** * Properties *)

(** ** Machine integers *)

Lemma to_int_small (z : Z) : - 2 ^ 31 <= z < 2 ^ 31 -> to_int z = z.
Proof.
  intros Hz. unfold to_int.
  rewrite Z.mod_small by lia. lia.
Qed.

Lemma to_uint_small (z : Z) : 0 <= z < 2 ^ 32 -> to_uint z = z.
Proof. intros Hz. unfold to_uint. now rewrite Z.mod_small. Qed.

Lemma to_uint8_small (z : Z) : is_byte z -> to_uint8 z = z.
Proof. intros Hz. unfold to_uint8, is_byte in *. rewrite Z.mod_small; lia. Qed.

Lemma to_uint8_is_byte (z : Z) : is_byte (to_uint8 z).
Proof.
  unfold to_uint8, is_byte.
  pose proof (Z.mod_pos_bound z (2 ^ 8)). lia.
Qed.

Lemma testbit_to_uint8 (z i : Z) :
  Z.testbit (to_uint8 z) i = (i <? 8) && Z.testbit z i.
Proof. unfold to_uint8. now apply Z.testbit_mod_pow2. Qed.

(** [1 << i] for a slot index that fits the [int]. *)
Lemma shift_one_slot (i : nat) :
  (i < 31)%nat -> to_int (Z.shiftl 1 (Z.of_nat i)) = 2 ^ Z.of_nat i.
Proof.
  intros Hi. rewrite Z.shiftl_1_l. apply to_int_small. split.
  - pose proof (Z.pow_nonneg 2 (Z.of_nat i)). lia.
  - apply Z.pow_lt_mono_r; lia.
Qed.

(** [e & (1 << i)] is nonzero exactly when bit [i] of [e] is set. *)
Lemma truthy_land_bit (e : Z) (i : nat) :
  truthy (Z.land e (2 ^ Z.of_nat i)) = Z.testbit e (Z.of_nat i).
Proof.
  unfold truthy.
  destruct (Z.testbit e (Z.of_nat i)) eqn:Hbit.
  - apply negb_true_iff, Z.eqb_neq. intros Hz.
    assert (Hb : Z.testbit (Z.land e (2 ^ Z.of_nat i)) (Z.of_nat i) = true).
    { rewrite Z.land_spec, Hbit, Z.pow2_bits_eqb, Z.eqb_refl by lia. reflexivity. }
    rewrite Hz, Z.bits_0 in Hb. discriminate.
  - apply negb_false_iff, Z.eqb_eq. apply Z.bits_inj'. intros n Hn.
    rewrite Z.land_spec, Z.bits_0, Z.pow2_bits_eqb by lia.
    destruct (Z.eqb_spec (Z.of_nat i) n) as [<- | Hne].
    + now rewrite Hbit.
    + apply andb_false_r.
Qed.

Lemma truthy_xy_independent (c : Z) :
  truthy (Z.land c SINOWEALTH_XY_INDEPENDENT) = Z.testbit c 7.
Proof. exact (truthy_land_bit c 7). Qed.

Lemma truthy_nonzero (z : Z) : truthy z = true <-> z <> 0.
Proof.
  unfold truthy. rewrite negb_true_iff. apply Z.eqb_neq.
Qed.

(** ** NumericCodec *)

(** A raw byte decodes without overflow. *)
Lemma raw_to_dpi_byte (raw : Z) :
  is_byte raw -> to_uint (sinowealth_raw_to_dpi raw) = (raw + 1) * 100.
Proof.
  unfold is_byte, sinowealth_raw_to_dpi. intros Hraw.
  rewrite to_int_small by lia. apply to_uint_small. lia.
Qed.

(** C7.  For every DPI value [d] of 100, 200, ..., 12000 the raw encoding
    is [d / 100 - 1] (truncating division, no wrap-around), decoding a raw
    value [raw] gives [(raw + 1) * 100], and decoding the encoding of [d]
    gives [d] back; this survives the cut to the [uint8_t] cell in which the
    raw value is stored. *)
Theorem raw_to_dpi_dpi_to_raw (d : Z) :
  100 <= d <= 12000 -> d mod 100 = 0 ->
  sinowealth_dpi_to_raw d = Z.quot d 100 - 1 /\
  sinowealth_raw_to_dpi (sinowealth_dpi_to_raw d) = (sinowealth_dpi_to_raw d + 1) * 100 /\
  sinowealth_raw_to_dpi (sinowealth_dpi_to_raw d) = d /\
  sinowealth_raw_to_dpi (raw_dpi_byte d) = d.
Proof.
  intros Hd Hmod.
  assert (Hq : Z.quot d 100 = d / 100) by (apply Z.quot_div_nonneg; lia).
  pose proof (Z.div_mod d 100 ltac:(lia)) as Hdm.
  assert (Hraw : sinowealth_dpi_to_raw d = d / 100 - 1).
  { unfold sinowealth_dpi_to_raw. rewrite Hq. apply to_int_small. lia. }
  assert (Hback : sinowealth_raw_to_dpi (d / 100 - 1) = d).
  { unfold sinowealth_raw_to_dpi. rewrite to_int_small; lia. }
  repeat split.
  - now rewrite Hraw, Hq.
  - rewrite Hraw, Hback. lia.
  - now rewrite Hraw.
  - unfold raw_dpi_byte. rewrite (to_int_small d) by lia.
    rewrite Hraw, to_uint8_small; [assumption | unfold is_byte; lia].
Qed.

Lemma raw_to_dpi_dpi_to_raw_witness :
  (100 <= 800 <= 12000 /\ 800 mod 100 = 0) /\
  sinowealth_raw_to_dpi (sinowealth_dpi_to_raw 800) = 800.
Proof.
  split; [split; [lia | reflexivity] |].
  apply (raw_to_dpi_dpi_to_raw 800); [lia | reflexivity].
Defined.

(** ** Lists *)

Lemma lookup_map {A B} (f : A -> B) (l : list A) (i : nat) :
  map f l !! i = f <$> (l !! i).
Proof. exact (list_lookup_fmap f l i). Qed.

Lemma foldl_preserves {A B C} (f : A -> B -> A) (proj : A -> C) :
  (forall a x, proj (f a x) = proj a) ->
  forall l a, proj (foldl f a l) = proj a.
Proof.
  intros Hstep l. induction l as [| x l IH]; intros a; simpl.
  - reflexivity.
  - now rewrite IH, Hstep.
Qed.

Lemma foldl_invariant {A B} (P : A -> Prop) (f : A -> B -> A) :
  (forall a x, P a -> P (f a x)) -> forall l a, P a -> P (foldl f a l).
Proof.
  intros Hstep l. induction l as [| x l IH]; intros a Ha; simpl; auto.
Qed.

(** ** The byte image and the struct agree *)

Lemma nibbles_pack (dc ad : Z) :
  0 <= dc < 16 -> 0 <= ad < 16 -> nibbles_ok dc ad = true.
Proof.
  intros Hdc Had.
  assert (Hall : forallb (fun x => forallb (nibbles_ok x) (seqZ 0 16)) (seqZ 0 16) = true)
    by (vm_compute; reflexivity).
  rewrite forallb_forall in Hall.
  specialize (Hall dc). rewrite forallb_forall in Hall.
  apply Hall; rewrite <- list_elem_of_In, elem_of_seqZ; lia.
Qed.

(** [memcpy] out of the struct and back into it is the identity. *)
Lemma config_of_bytes_config_bytes c rest :
  wf_config c -> 0 <= dpi_count c < 16 -> 0 <= active_dpi c < 16 ->
  config_of_bytes (config_bytes c ++ rest) = c.
Proof.
  destruct c as [rid cid u1 cw u2 cf dc ad en d dcol eff gm gd sc bm bc bcol
                 tm rm rcol wm b1m b1c u4 lod].
  unfold wf_config.
  cbn [unk2 dpi dpi_color breathing_colors rave_colors dpi_count active_dpi].
  intros (H2 & Hd & Hc & Hb & Hr) Hdc Had.
  pose proof (nibbles_pack dc ad Hdc Had) as Hn. unfold nibbles_ok in Hn.
  rewrite !andb_true_iff, !Z.eqb_eq in Hn. destruct Hn as [[[Hlo Hhi] _] _].
  do 6 (destruct u2 as [| ? u2]; [discriminate H2 |]).
  destruct u2; [| discriminate H2].
  do 16 (destruct d as [| ? d]; [discriminate Hd |]).
  destruct d; [| discriminate Hd].
  do 8 (destruct dcol as [| [] dcol]; [discriminate Hc |]).
  destruct dcol; [| discriminate Hc].
  do 7 (destruct bcol as [| [] bcol]; [discriminate Hb |]).
  destruct bcol; [| discriminate Hb].
  do 2 (destruct rcol as [| [] rcol]; [discriminate Hr |]).
  destruct rcol; [| discriminate Hr].
  destruct sc, b1c.
  unfold config_of_bytes, config_bytes.
  cbn -[Z.land Z.lor Z.shiftl Z.shiftr].
  rewrite Hlo, Hhi. reflexivity.
Qed.

(** A report of at least 97 bytes fills every array of the struct. *)
Lemma config_of_bytes_wf data :
  (97 <= length data)%nat -> wf_config (config_of_bytes data).
Proof.
  intros Hlen. unfold wf_config, config_of_bytes, RGB8_array_at.
  cbn [unk2 dpi dpi_color breathing_colors rave_colors].
  rewrite !length_take, !length_drop, !length_map, !length_seq.
  repeat split; lia.
Qed.

(** The end-to-end example: the sample report decodes to a profile whose
    resolution 0 has 800 DPI on both axes and is active, and whose body LED
    is on in red. *)
Example read_sample_report :
  let result := sample_read sample_report in
  read_rc result = 0 /\
  (map (fun res => (dpi_x res, dpi_y res, is_active res))
       (resolutions (read_profile result))) =
    [(800, 800, true); (1600, 1600, false); (0, 0, false); (0, 0, false);
     (0, 0, false); (0, 0, false)] /\
  ((fun led => (mode led, color led)) <$> (leds (read_profile result) !! 0%nat)) =
    Some (RATBAG_LED_ON, mkColor 255 0 0).
Proof. cbv zeta. repeat split; vm_compute; reflexivity. Qed.

(** ** The DPI list *)

(** C2.  The list built by lines 198-202 has 121 elements and starts with
    the sentinel 0, but its element [i] is [100 + 100 * i], not [100 * i]:
    the loop adds [i] steps to [SINOWEALTH_DPI_MIN] although [i] starts at
    1.  The list is therefore 0, 200, 300, ..., 12100: it lacks
    [SINOWEALTH_DPI_MIN] and ends above [SINOWEALTH_DPI_MAX]. *)
Theorem generate_dpi_list_off_by_one :
  length generate_dpi_list = 121%nat /\
  (generate_dpi_list !! 0%nat) = Some 0 /\
  (generate_dpi_list !! 1%nat) = Some 200 /\
  (generate_dpi_list !! 120%nat) = Some 12100 /\
  generate_dpi_list =
    (0 :: map (fun i => 100 + 100 * Z.of_nat i) (seq 1 120)) /\
  (SINOWEALTH_DPI_MIN ∉ generate_dpi_list) /\
  (forall (i : nat) (d : Z),
     (1 <= i)%nat -> generate_dpi_list !! i = Some d ->
     d = SINOWEALTH_DPI_MIN + Z.of_nat i * SINOWEALTH_DPI_STEP /\ d <> 100 * Z.of_nat i).
Proof.
  assert (Hlist : generate_dpi_list =
                  (0 :: map (fun i => 100 + 100 * Z.of_nat i) (seq 1 120)))
    by (vm_compute; reflexivity).
  repeat split; try (vm_compute; reflexivity); try exact Hlist.
  - rewrite Hlist. unfold SINOWEALTH_DPI_MIN.
    intros Hin. apply elem_of_cons in Hin as [Hin | Hin]; [discriminate |].
    apply list_elem_of_fmap in Hin as (i & Hi & Hin).
    apply elem_of_seq in Hin. lia.
  - revert H0. rewrite Hlist. destruct i as [| j]; [lia |].
    change ((?x :: ?l) !! S j) with (l !! j). rewrite lookup_map. intros Hd.
    destruct (seq 1 120 !! j) as [k |] eqn:Hk; [| discriminate].
    apply lookup_seq in Hk as [-> _]. injection Hd as <-.
    unfold SINOWEALTH_DPI_MIN, SINOWEALTH_DPI_STEP. lia.
  - revert H0. rewrite Hlist. destruct i as [| j]; [lia |].
    change ((?x :: ?l) !! S j) with (l !! j). rewrite lookup_map. intros Hd.
    destruct (seq 1 120 !! j) as [k |] eqn:Hk; [| discriminate].
    apply lookup_seq in Hk as [-> _]. injection Hd as <-. lia.
Qed.

(** ** Commit: which stage writes which field *)

Ltac led_cases :=
  intros; unfold commit_dpi_led, commit_body_led, commit_body_effect,
    ratbag_profile_get_led;
  repeat match goal with
         | |- context [match ?l !! ?i with _ => _ end] => destruct (l !! i)
         | |- context [match mode ?l with _ => _ end] => destruct (mode l)
         end;
  reflexivity.

Lemma commit_dpi_leds_keeps {C} (proj : sinowealth_config_report -> C)
    (cfg : sinowealth_config_report) (profile : ratbag_profile) :
  (forall c v, proj (set_dpi_color v c) = proj c) ->
  proj (commit_dpi_leds cfg profile) = proj cfg.
Proof.
  intros Hproj. unfold commit_dpi_leds.
  apply (foldl_preserves (commit_dpi_led profile) proj).
  intros a i. unfold commit_dpi_led.
  destruct (ratbag_profile_get_led profile i); [apply Hproj | reflexivity].
Qed.

Lemma commit_config_dpi cfg profile :
  dpi (commit_config cfg profile) =
  dpi (commit_resolutions (commit_xy_independent cfg profile) profile).
Proof.
  unfold commit_config. cbn [set_config_write dpi].
  rewrite (commit_dpi_leds_keeps dpi) by reflexivity. led_cases.
Qed.

Lemma commit_config_dpi_enabled cfg profile :
  dpi_enabled (commit_config cfg profile) =
  dpi_enabled (commit_resolutions (commit_xy_independent cfg profile) profile).
Proof.
  unfold commit_config. cbn [set_config_write dpi_enabled].
  rewrite (commit_dpi_leds_keeps dpi_enabled) by reflexivity. led_cases.
Qed.

Lemma commit_resolution_config cfg res :
  config (commit_resolution cfg res) = config cfg.
Proof.
  unfold commit_resolution.
  destruct (truthy (Z.land (config cfg) SINOWEALTH_XY_INDEPENDENT));
    destruct (slot_enabled res); reflexivity.
Qed.

Lemma commit_config_config cfg profile :
  config (commit_config cfg profile) =
  config (commit_xy_independent cfg profile).
Proof.
  unfold commit_config. cbn [set_config_write config].
  rewrite (commit_dpi_leds_keeps config) by reflexivity.
  transitivity (config (commit_resolutions (commit_xy_independent cfg profile) profile)).
  - led_cases.
  - unfold commit_resolutions.
    now rewrite (foldl_preserves commit_resolution config commit_resolution_config).
Qed.

Lemma commit_config_rgb_effect cfg profile :
  rgb_effect (commit_config cfg profile) =
  rgb_effect (commit_body_led
                (commit_resolutions (commit_xy_independent cfg profile) profile)
                profile).
Proof.
  unfold commit_config. cbn [set_config_write rgb_effect].
  now rewrite (commit_dpi_leds_keeps rgb_effect).
Qed.

Lemma commit_config_single_color cfg profile :
  single_color (commit_config cfg profile) =
  single_color (commit_body_led
                  (commit_resolutions (commit_xy_independent cfg profile) profile)
                  profile).
Proof.
  unfold commit_config. cbn [set_config_write single_color].
  now rewrite (commit_dpi_leds_keeps single_color).
Qed.

Lemma commit_config_breathing1_color cfg profile :
  breathing1_color (commit_config cfg profile) =
  breathing1_color (commit_body_led
                      (commit_resolutions (commit_xy_independent cfg profile) profile)
                      profile).
Proof.
  unfold commit_config. cbn [set_config_write breathing1_color].
  now rewrite (commit_dpi_leds_keeps breathing1_color).
Qed.

Lemma commit_drv_config_eq device cfg profile :
  commit_drv_config (sinowealth_commit device cfg profile) = commit_config cfg profile.
Proof.
  unfold sinowealth_commit.
  now destruct (negb (_ =? SINOWEALTH_CONFIG_SIZE)).
Qed.

Lemma commit_sent_eq device cfg profile :
  commit_sent (sinowealth_commit device cfg profile) =
  commit_data (commit_config cfg profile).
Proof.
  unfold sinowealth_commit.
  now destruct (negb (_ =? SINOWEALTH_CONFIG_SIZE)).
Qed.

(** ** Commit: the XY-independent flag *)

(** Whatever the profile holds, the flag is clear after lines 321-327:
    line 321 clears it, and line 324 is [&=] where the flag would have to
    be set with [|=]. *)
Lemma commit_xy_independent_clear cfg profile :
  Z.testbit (config (commit_xy_independent cfg profile)) 7 = false.
Proof.
  unfold commit_xy_independent.
  set (cfg1 := set_config _ cfg).
  assert (H1 : Z.testbit (config cfg1) 7 = false).
  { subst cfg1. cbn [set_config config]. rewrite testbit_to_uint8, Z.land_spec.
    unfold SINOWEALTH_XY_INDEPENDENT.
    replace (Z.testbit (Z.lnot 128) 7) with false by reflexivity.
    now rewrite andb_false_r. }
  clearbody cfg1.
  induction (resolutions profile) as [| res rs IH]; cbn [commit_xy_scan];
    [assumption |].
  destruct (xy_differ res); [| assumption].
  cbn [set_config config]. rewrite testbit_to_uint8, Z.land_spec, H1. reflexivity.
Qed.

Lemma commit_config_shared_mode cfg profile :
  truthy (Z.land (config (commit_xy_independent cfg profile))
                 SINOWEALTH_XY_INDEPENDENT) = false.
Proof. rewrite truthy_xy_independent. apply commit_xy_independent_clear. Qed.

(** C1.  Commit of a profile with the resolutions (800,800) and (400,800),
    starting from a config byte 0x01: the XY-independent flag is not set
    afterwards (line 324 masks the byte with 0x80 instead of setting the
    bit), and bit 0 of the config byte is lost with it.  With (800,800) and
    (0,0) the flag is cleared and bit 0 is kept. *)
Theorem commit_loses_xy_independent :
  let drv := set_config 0x01 zero_config in
  let differ := profile_with_dpis [(800, 800); (400, 800)] in
  let same := profile_with_dpis [(800, 800); (0, 0)] in
  wf_profile differ /\ wf_config drv /\
  config (commit_drv_config (sinowealth_commit (device_writing 520) drv differ)) = 0 /\
  Z.testbit (config (commit_drv_config
                       (sinowealth_commit (device_writing 520) drv differ))) 7 = false /\
  commit_sent (sinowealth_commit (device_writing 520) drv differ) !! 10%nat = Some 0 /\
  config (commit_drv_config (sinowealth_commit (device_writing 520) drv same)) = 0x01.
Proof.
  cbv zeta. repeat split; vm_compute; reflexivity.
Qed.

(** ** Commit: the loop over the resolutions *)

Lemma wf_resolutions_index rs (i : nat) res :
  wf_resolutions rs -> rs !! i = Some res -> index res = i.
Proof.
  unfold wf_resolutions. intros Hwf Hres.
  assert (Hi : (map index rs) !! i = Some (index res)) by now rewrite lookup_map, Hres.
  rewrite Hwf in Hi. apply lookup_seq in Hi. lia.
Qed.

Lemma wf_resolutions_snoc rs res :
  wf_resolutions (rs ++ [res]) -> wf_resolutions rs /\ index res = length rs.
Proof.
  unfold wf_resolutions.
  rewrite map_app, length_app, seq_app. simpl. intros Hwf.
  apply app_inj_tail in Hwf. tauto.
Qed.

Lemma wf_profile_index profile (i : nat) res :
  wf_profile profile -> resolutions profile !! i = Some res ->
  index res = i /\ (i < 6)%nat.
Proof.
  intros (Hlen & Hwf & _) Hres. split.
  - eapply wf_resolutions_index; eassumption.
  - apply lookup_lt_Some in Hres. unfold SINOWEALTH_NUM_DPIS in Hlen. lia.
Qed.

(** One pass through lines 331-340 when the XY-independent flag is clear. *)
Lemma commit_resolution_shared cfg res :
  truthy (Z.land (config cfg) SINOWEALTH_XY_INDEPENDENT) = false ->
  (index res < 8)%nat ->
  dpi (commit_resolution cfg res) =
    <[index res := raw_dpi_byte (dpi_x res)]> (dpi cfg) /\
  forall j : nat, (j < 8)%nat ->
    Z.testbit (dpi_enabled (commit_resolution cfg res)) (Z.of_nat j) =
    Z.testbit (dpi_enabled cfg) (Z.of_nat j) &&
    negb ((j =? index res)%nat && slot_enabled res).
Proof.
  intros Hmode Hidx. unfold commit_resolution. rewrite Hmode.
  destruct (slot_enabled res); cbn [set_dpi set_dpi_enabled dpi dpi_enabled];
    (split; [reflexivity |]); intros j Hj.
  - rewrite testbit_to_uint8, Z.land_spec, shift_one_slot by lia.
    rewrite Z.lnot_spec, Z.pow2_bits_eqb by lia.
    replace (Z.of_nat j <? 8) with true by (symmetry; apply Z.ltb_lt; lia).
    rewrite andb_true_r. cbn [andb]. do 2 f_equal.
    destruct (Nat.eqb_spec j (index res)) as [-> | Hne].
    + apply Z.eqb_refl.
    + apply Z.eqb_neq. lia.
  - now rewrite andb_false_r, andb_true_r.
Qed.

(** The state after lines 330-341, by induction on the resolutions seen so
    far: every slot visited has its raw byte written and its bit cleared
    when enabled; every other slot is as before. *)
Lemma commit_loop_invariant rs :
  wf_resolutions rs -> (length rs <= 8)%nat ->
  forall cfg,
    length (dpi cfg) = 16%nat ->
    truthy (Z.land (config cfg) SINOWEALTH_XY_INDEPENDENT) = false ->
    let cfg' := foldl commit_resolution cfg rs in
    length (dpi cfg') = 16%nat /\
    (forall (i : nat) res, rs !! i = Some res ->
       dpi cfg' !! i = Some (raw_dpi_byte (dpi_x res)) /\
       Z.testbit (dpi_enabled cfg') (Z.of_nat i) =
       Z.testbit (dpi_enabled cfg) (Z.of_nat i) && negb (slot_enabled res)) /\
    (forall i : nat, (length rs <= i < 8)%nat ->
       Z.testbit (dpi_enabled cfg') (Z.of_nat i) =
       Z.testbit (dpi_enabled cfg) (Z.of_nat i)).
Proof.
  induction rs as [| res rs IH] using rev_ind; intros Hwf Hlen cfg Hdpi Hmode.
  - cbv zeta. cbn [foldl]. split; [assumption |]. split.
    + intros i res Hres. rewrite lookup_nil in Hres. discriminate.
    + reflexivity.
  - rewrite length_app in Hlen. simpl in Hlen.
    apply wf_resolutions_snoc in Hwf as [Hwf Hidx].
    destruct (IH Hwf ltac:(lia) cfg Hdpi Hmode) as (Hlen' & Hseen & Hrest).
    cbv zeta. rewrite foldl_snoc.
    set (mid := foldl commit_resolution cfg rs) in *.
    assert (Hmid : truthy (Z.land (config mid) SINOWEALTH_XY_INDEPENDENT) = false).
    { subst mid.
      now rewrite (foldl_preserves commit_resolution config commit_resolution_config). }
    destruct (commit_resolution_shared mid res Hmid ltac:(lia)) as [Hd He].
    rewrite Hd, length_insert. split; [assumption |]. split.
    + intros i r Hr. destruct (decide (i < length rs)%nat) as [Hlt | Hge].
      * rewrite lookup_app_l in Hr by assumption.
        destruct (Hseen i r Hr) as [Hbyte Hbit].
        rewrite list_lookup_insert_ne by lia. split; [assumption |].
        rewrite He by lia. rewrite Hbit.
        replace (i =? index res)%nat with false by (symmetry; apply Nat.eqb_neq; lia).
        now rewrite andb_true_r.
      * assert (Hi : i = length rs).
        { apply lookup_lt_Some in Hr. rewrite length_app in Hr. simpl in Hr. lia. }
        subst i. rewrite lookup_app_r, Nat.sub_diag in Hr by lia.
        injection Hr as <-. rewrite Hidx.
        rewrite list_lookup_insert_eq by lia. split; [reflexivity |].
        rewrite He, Hrest by lia. rewrite <- Hidx, Nat.eqb_refl. reflexivity.
    + intros i Hi. rewrite length_app in Hi. simpl in Hi.
      rewrite He, Hrest by lia.
      replace (i =? index res)%nat with false by (symmetry; apply Nat.eqb_neq; lia).
      now rewrite andb_true_r.
Qed.

Lemma commit_xy_scan_dpi cfg rs : dpi (commit_xy_scan cfg rs) = dpi cfg.
Proof.
  induction rs as [| res rs IH]; cbn [commit_xy_scan]; [reflexivity |].
  now destruct (xy_differ res).
Qed.

Lemma commit_xy_independent_dpi cfg profile :
  dpi (commit_xy_independent cfg profile) = dpi cfg.
Proof. unfold commit_xy_independent. now rewrite commit_xy_scan_dpi. Qed.

Lemma slot_enabled_iff res :
  slot_enabled res = true <-> dpi_x res <> 0 /\ dpi_y res <> 0.
Proof.
  unfold slot_enabled. rewrite andb_true_iff, !truthy_nonzero. reflexivity.
Qed.

(** What [sinowealth_commit] leaves in a slot of the profile. *)
Lemma commit_config_slot cfg profile (i : nat) res :
  wf_config cfg -> wf_profile profile ->
  resolutions profile !! i = Some res ->
  dpi (commit_config cfg profile) !! i = Some (raw_dpi_byte (dpi_x res)) /\
  Z.testbit (dpi_enabled (commit_config cfg profile)) (Z.of_nat i) =
    negb (slot_enabled res).
Proof.
  intros (_ & Hdpi & _) Hwf Hres.
  destruct Hwf as (Hlen & Hwf & _). unfold SINOWEALTH_NUM_DPIS in Hlen.
  rewrite commit_config_dpi, commit_config_dpi_enabled. unfold commit_resolutions.
  set (start := set_dpi_enabled 255 (commit_xy_independent cfg profile)).
  destruct (commit_loop_invariant (resolutions profile) Hwf ltac:(lia) start)
    as (_ & Hseen & _).
  - subst start. cbn [set_dpi_enabled dpi]. now rewrite commit_xy_independent_dpi.
  - subst start. cbn [set_dpi_enabled config]. apply commit_config_shared_mode.
  - destruct (Hseen i res Hres) as [Hbyte Hbit]. split; [assumption |].
    rewrite Hbit. subst start. cbn [set_dpi_enabled dpi_enabled].
    apply lookup_lt_Some in Hres.
    replace (Z.testbit 255 (Z.of_nat i)) with true; [reflexivity |].
    symmetry. change 255 with (Z.ones 8). apply Z.ones_spec_low. lia.
Qed.

(** The bits of the slots that the profile does not have stay set. *)
Lemma commit_config_unused_slot cfg profile (i : nat) :
  wf_config cfg -> wf_profile profile ->
  (length (resolutions profile) <= i < 8)%nat ->
  Z.testbit (dpi_enabled (commit_config cfg profile)) (Z.of_nat i) = true.
Proof.
  intros (_ & Hdpi & _) Hwf Hi.
  destruct Hwf as (Hlen & Hwf & _). unfold SINOWEALTH_NUM_DPIS in Hlen.
  rewrite commit_config_dpi_enabled. unfold commit_resolutions.
  set (start := set_dpi_enabled 255 (commit_xy_independent cfg profile)).
  destruct (commit_loop_invariant (resolutions profile) Hwf ltac:(lia) start)
    as (_ & _ & Hrest).
  - subst start. cbn [set_dpi_enabled dpi]. now rewrite commit_xy_independent_dpi.
  - subst start. cbn [set_dpi_enabled config]. apply commit_config_shared_mode.
  - rewrite Hrest by assumption. subst start. cbn [set_dpi_enabled dpi_enabled].
    change 255 with (Z.ones 8). apply Z.ones_spec_low. lia.
Qed.

(** ** Read: the shape of a successful read *)

Lemma read_profile_success device cfg0 profile :
  read_rc (sinowealth_read_profile device cfg0 profile) = 0 ->
  read_profile (sinowealth_read_profile device cfg0 profile) =
    read_profile_from_config
      (read_config (sinowealth_read_profile device cfg0 profile)) profile /\
  exists data,
    read_config (sinowealth_read_profile device cfg0 profile) = config_of_bytes data.
Proof.
  unfold sinowealth_read_profile.
  destruct (negb (to_size_t _ =? _)); [discriminate |].
  destruct (ratbag_hidraw_get_feature_report _ _ _) as [rc data].
  destruct (to_size_t rc <? sizeof_config); [discriminate |].
  intros _. cbn [read_profile read_config]. eauto.
Qed.

Lemma read_resolutions_eq cfg profile :
  resolutions (read_profile_from_config cfg profile) =
  map (read_resolution cfg generate_dpi_list) (resolutions profile).
Proof. reflexivity. Qed.

Lemma read_body_led_eq cfg profile :
  leds (read_profile_from_config cfg profile) !! 0%nat =
  read_body_led cfg <$> (leds profile !! 0%nat).
Proof.
  unfold read_profile_from_config. cbn -[read_body_led read_dpi_led alter].
  rewrite !list_lookup_alter_ne by lia.
  rewrite list_lookup_alter. reflexivity.
Qed.

Lemma read_resolution_index cfg dpis res :
  index (read_resolution cfg dpis res) = index res.
Proof.
  unfold read_resolution, read_resolution_flags, read_resolution_disabled,
    read_resolution_dpi.
  destruct (truthy (Z.land (config cfg) _)); cbn [set_dpi_xy index];
    destruct (truthy (Z.land (dpi_enabled cfg) _)); reflexivity.
Qed.

Lemma read_resolution_dpi_index cfg res :
  index (read_resolution_dpi cfg res) = index res.
Proof.
  unfold read_resolution_dpi.
  now destruct (truthy (Z.land (config cfg) _)).
Qed.

(** The DPI fields after the whole loop body are those left by lines
    212-216. *)
Lemma read_resolution_dpi_xy cfg dpis res :
  dpi_x (read_resolution cfg dpis res) =
    dpi_x (read_resolution_disabled cfg (read_resolution_dpi cfg res)) /\
  dpi_y (read_resolution cfg dpis res) =
    dpi_y (read_resolution_disabled cfg (read_resolution_dpi cfg res)).
Proof. split; reflexivity. Qed.

(** Lines 212-216 in terms of the bit of the slot. *)
Lemma read_resolution_disabled_bit cfg res :
  (index res < 31)%nat ->
  read_resolution_disabled cfg res =
  if Z.testbit (dpi_enabled cfg) (Z.of_nat (index res))
  then set_dpi_xy 0 0 res else res.
Proof.
  intros Hidx. unfold read_resolution_disabled.
  now rewrite shift_one_slot, truthy_land_bit.
Qed.

(** A resolution of the profile read is the loop body applied to the
    resolution that was in the same place. *)
Lemma read_resolution_lookup device cfg0 profile (i : nat) res :
  wf_profile profile ->
  read_rc (sinowealth_read_profile device cfg0 profile) = 0 ->
  resolutions (read_profile (sinowealth_read_profile device cfg0 profile)) !! i
    = Some res ->
  exists res0,
    resolutions profile !! i = Some res0 /\ index res0 = i /\ (i < 6)%nat /\
    res = read_resolution (read_config (sinowealth_read_profile device cfg0 profile))
            generate_dpi_list res0.
Proof.
  intros Hwf Hrc Hres.
  destruct (read_profile_success device cfg0 profile Hrc) as [Hp _].
  rewrite Hp, read_resolutions_eq, lookup_map in Hres.
  destruct (resolutions profile !! i) as [res0 |] eqn:Hres0; [| discriminate].
  injection Hres as <-. exists res0.
  destruct (wf_profile_index profile i res0 Hwf Hres0) as [Hidx Hlt].
  auto.
Qed.

(** The 4-bit field read from the report. *)
Lemma config_of_bytes_active_dpi data :
  0 <= active_dpi (config_of_bytes data) <= 15.
Proof.
  cbn [config_of_bytes active_dpi].
  generalize (Z.shiftr (data !!! 11%nat) 4). intros z.
  change (Z.land z 15) with (Z.land z (Z.ones 4)).
  rewrite Z.land_ones by lia.
  pose proof (Z.mod_pos_bound z (2 ^ 4)). lia.
Qed.

Lemma read_resolution_disabled_index cfg res :
  index (read_resolution_disabled cfg res) = index res.
Proof.
  unfold read_resolution_disabled.
  now destruct (truthy (Z.land (dpi_enabled cfg) _)).
Qed.

(** ** Read: the active resolution *)

(** C8.  After a successful profile read, the resolution at the 0-based
    position [i] is marked active exactly when [i] is the wire field
    [active_dpi] minus 1, and it is the default resolution exactly when it
    is active. *)
Theorem read_active_resolution device cfg0 profile (i : nat) res :
  wf_profile profile ->
  read_rc (sinowealth_read_profile device cfg0 profile) = 0 ->
  resolutions (read_profile (sinowealth_read_profile device cfg0 profile)) !! i
    = Some res ->
  (is_active res = true <->
   Z.of_nat i = active_dpi (read_config (sinowealth_read_profile device cfg0 profile)) - 1) /\
  is_default res = is_active res.
Proof.
  intros Hwf Hrc Hres.
  destruct (read_resolution_lookup device cfg0 profile i res Hwf Hrc Hres)
    as (res0 & _ & Hidx & Hlt & ->).
  destruct (read_profile_success device cfg0 profile Hrc) as [_ [data Hcfg]].
  set (cfg := read_config _) in *.
  pose proof (config_of_bytes_active_dpi data) as Hrange. rewrite <- Hcfg in Hrange.
  unfold read_resolution, read_resolution_flags.
  cbn [ratbag_resolution_set_cap ratbag_resolution_set_dpi_list set_is_default
       set_is_active is_active is_default].
  split; [| reflexivity].
  rewrite read_resolution_disabled_index, read_resolution_dpi_index, Hidx.
  rewrite Z.eqb_eq. unfold to_uint.
  destruct (Z.eq_dec (active_dpi cfg) 0) as [Hzero | Hpos].
  - rewrite Hzero. change ((0 - 1) mod 2 ^ 32) with 4294967295. lia.
  - rewrite Z.mod_small by lia. reflexivity.
Qed.

Lemma read_active_resolution_witness :
  (wf_profile blank_profile /\
   read_rc (sample_read sample_report) = 0 /\
   resolutions (read_profile (sample_read sample_report)) !! 0%nat =
     Some (read_resolution (config_of_bytes sample_report) generate_dpi_list
             (blank_resolution 0))) /\
  (is_active (read_resolution (config_of_bytes sample_report) generate_dpi_list
                (blank_resolution 0)) = true <->
   Z.of_nat 0 = active_dpi (read_config (sample_read sample_report)) - 1).
Proof.
  assert (Hwf : wf_profile blank_profile) by (repeat split; reflexivity).
  assert (Hrc : read_rc (sample_read sample_report) = 0) by (vm_compute; reflexivity).
  assert (Hres : resolutions (read_profile (sample_read sample_report)) !! 0%nat =
                 Some (read_resolution (config_of_bytes sample_report)
                         generate_dpi_list (blank_resolution 0)))
    by (vm_compute; reflexivity).
  split; [auto |].
  exact (proj1 (read_active_resolution _ _ _ _ _ Hwf Hrc Hres)).
Defined.

(** ** The enable mask *)

Lemma commit_resolution_dpi_enabled_byte c res :
  is_byte (dpi_enabled c) -> is_byte (dpi_enabled (commit_resolution c res)).
Proof.
  intros Hbyte. unfold commit_resolution.
  destruct (truthy (Z.land (config c) _)); destruct (slot_enabled res);
    cbn [set_dpi set_dpi_enabled dpi_enabled];
    assumption || apply to_uint8_is_byte.
Qed.

Lemma commit_config_dpi_enabled_byte cfg profile :
  is_byte (dpi_enabled (commit_config cfg profile)).
Proof.
  rewrite commit_config_dpi_enabled. unfold commit_resolutions.
  apply (foldl_invariant (fun c => is_byte (dpi_enabled c)) commit_resolution
           commit_resolution_dpi_enabled_byte).
  cbn [set_dpi_enabled dpi_enabled]. unfold is_byte. lia.
Qed.

(** C4.  On commit the mask starts from 0xFF (it is 0xFF when there is no
    resolution to go through) and stays a byte; the bit of a resolution in
    [dpi_enabled] is clear exactly when both its [dpi_x] and [dpi_y] are
    nonzero, and the bits of the two slots the profile does not have stay
    set.
    On a successful read, a slot whose bit is set in [dpi_enabled] gets
    [dpi_x = dpi_y = 0], whatever its raw DPI bytes are. *)
Theorem enable_mask_inverted :
  (forall device cfg profile (i : nat) res,
     wf_config cfg -> wf_profile profile ->
     resolutions profile !! i = Some res ->
     let cfg' := commit_drv_config (sinowealth_commit device cfg profile) in
     dpi_enabled (commit_resolutions cfg (set_resolutions [] profile)) = 0xFF /\
     is_byte (dpi_enabled cfg') /\
     (Z.testbit (dpi_enabled cfg') (Z.of_nat i) = false <->
      dpi_x res <> 0 /\ dpi_y res <> 0) /\
     (forall j : nat, (length (resolutions profile) <= j < 8)%nat ->
        Z.testbit (dpi_enabled cfg') (Z.of_nat j) = true)) /\
  (forall device cfg0 profile (i : nat) res,
     wf_profile profile ->
     let result := sinowealth_read_profile device cfg0 profile in
     read_rc result = 0 ->
     resolutions (read_profile result) !! i = Some res ->
     Z.testbit (dpi_enabled (read_config result)) (Z.of_nat i) = true ->
     dpi_x res = 0 /\ dpi_y res = 0).
Proof.
  split.
  - intros device cfg profile i res Hcfg Hwf Hres cfg'. subst cfg'.
    rewrite commit_drv_config_eq. split; [reflexivity |].
    split; [apply commit_config_dpi_enabled_byte |]. split.
    + destruct (commit_config_slot cfg profile i res Hcfg Hwf Hres) as [_ Hbit].
      rewrite Hbit, negb_false_iff. apply slot_enabled_iff.
    + intros j Hj. now apply commit_config_unused_slot.
  - intros device cfg0 profile i res Hwf result Hrc Hres Hbit. subst result.
    destruct (read_resolution_lookup device cfg0 profile i res Hwf Hrc Hres)
      as (res0 & _ & Hidx & Hlt & ->).
    destruct (read_resolution_dpi_xy
                (read_config (sinowealth_read_profile device cfg0 profile))
                generate_dpi_list res0) as [-> ->].
    rewrite read_resolution_disabled_bit
      by (rewrite read_resolution_dpi_index; lia).
    rewrite read_resolution_dpi_index, Hidx, Hbit. split; reflexivity.
Qed.

Lemma enable_mask_inverted_witness :
  (wf_config zero_config /\
   wf_profile (profile_with_dpis [(800, 800); (0, 0)]) /\
   resolutions (profile_with_dpis [(800, 800); (0, 0)]) !! 0%nat =
     Some (set_dpi_xy 800 800 (blank_resolution 0)) /\
   wf_profile blank_profile /\
   read_rc (sample_read sample_report) = 0 /\
   resolutions (read_profile (sample_read sample_report)) !! 2%nat =
     Some (read_resolution (config_of_bytes sample_report) generate_dpi_list
             (blank_resolution 2)) /\
   Z.testbit (dpi_enabled (read_config (sample_read sample_report))) (Z.of_nat 2) = true) /\
  (Z.testbit
     (dpi_enabled (commit_drv_config
                     (sinowealth_commit (device_writing 520) zero_config
                        (profile_with_dpis [(800, 800); (0, 0)])))) (Z.of_nat 0) = false <->
   800 <> 0 /\ 800 <> 0) /\
  dpi_x (read_resolution (config_of_bytes sample_report) generate_dpi_list
           (blank_resolution 2)) = 0.
Proof.
  assert (Hcfg : wf_config zero_config) by (repeat split; reflexivity).
  assert (Hwf : wf_profile (profile_with_dpis [(800, 800); (0, 0)]))
    by (repeat split; reflexivity).
  assert (Hres : resolutions (profile_with_dpis [(800, 800); (0, 0)]) !! 0%nat =
                 Some (set_dpi_xy 800 800 (blank_resolution 0))) by reflexivity.
  assert (Hwf' : wf_profile blank_profile) by (repeat split; reflexivity).
  assert (Hrc : read_rc (sample_read sample_report) = 0) by (vm_compute; reflexivity).
  assert (Hres' : resolutions (read_profile (sample_read sample_report)) !! 2%nat =
                  Some (read_resolution (config_of_bytes sample_report)
                          generate_dpi_list (blank_resolution 2)))
    by (vm_compute; reflexivity).
  assert (Hbit : Z.testbit (dpi_enabled (read_config (sample_read sample_report)))
                   (Z.of_nat 2) = true) by (vm_compute; reflexivity).
  split; [repeat split; assumption |]. split.
  - exact (proj1 (proj2 (proj2 (proj1 enable_mask_inverted (device_writing 520) _ _ _ _
                                  Hcfg Hwf Hres)))).
  - exact (proj1 (proj2 enable_mask_inverted _ _ _ _ _ Hwf' Hrc Hres' Hbit)).
Defined.

(** ** Commit: the raw byte of a disabled slot *)

Lemma config_bytes_dpi c (i : nat) :
  wf_config c -> (i < 16)%nat -> config_bytes c !! (13 + i)%nat = dpi c !! i.
Proof.
  intros (Hunk & Hdpi & _) Hi. unfold config_bytes.
  rewrite lookup_app_r by (simpl; lia).
  rewrite lookup_app_r by (rewrite Hunk; simpl; lia).
  rewrite lookup_app_r by (rewrite Hunk; simpl; lia).
  rewrite lookup_app_l by (rewrite Hunk, Hdpi; simpl; lia).
  f_equal. rewrite Hunk. simpl. lia.
Qed.

Lemma length_RGB8_array (l : list RGB8) :
  length (concat (map RGB8_bytes l)) = (3 * length l)%nat.
Proof.
  induction l as [| c l IH]; simpl; [reflexivity |]. rewrite IH. lia.
Qed.

Lemma length_config_bytes c : wf_config c -> length (config_bytes c) = 97%nat.
Proof.
  intros (Hunk & Hdpi & Hcol & Hbre & Hrave). unfold config_bytes.
  repeat (rewrite length_app || rewrite length_RGB8_array).
  rewrite Hunk, Hdpi, Hcol, Hbre, Hrave. reflexivity.
Qed.

Lemma commit_data_structured c (i : nat) :
  wf_config c -> (i < 97)%nat -> commit_data c !! i = config_bytes c !! i.
Proof.
  intros Hwf Hi. unfold commit_data, memcpy, sizeof_config.
  change (Z.to_nat 97) with 97%nat.
  rewrite lookup_app_l by (rewrite length_take, length_config_bytes by assumption; lia).
  rewrite lookup_take. destruct (decide (i < 97)%nat); [reflexivity | lia].
Qed.

Lemma commit_dpi_led_wf profile c (i : nat) :
  wf_config c -> wf_config (commit_dpi_led profile c i).
Proof.
  unfold commit_dpi_led, wf_config.
  destruct (ratbag_profile_get_led profile i); [| tauto].
  cbn [set_dpi_color unk2 dpi dpi_color breathing_colors rave_colors].
  now rewrite length_insert.
Qed.

Lemma commit_resolution_wf c res : wf_config c -> wf_config (commit_resolution c res).
Proof.
  unfold commit_resolution, wf_config.
  destruct (truthy (Z.land (config c) _)); destruct (slot_enabled res);
    cbn [set_dpi set_dpi_enabled unk2 dpi dpi_color breathing_colors rave_colors];
    rewrite ?length_insert; tauto.
Qed.

Lemma commit_xy_scan_wf c rs : wf_config c -> wf_config (commit_xy_scan c rs).
Proof.
  intros Hwf. induction rs as [| res rs IH]; cbn [commit_xy_scan]; [assumption |].
  destruct (xy_differ res); assumption.
Qed.

(** The arrays keep their lengths through [sinowealth_commit]. *)
Lemma commit_config_wf cfg profile :
  wf_config cfg -> wf_config (commit_config cfg profile).
Proof.
  intros Hwf. unfold commit_config.
  assert (H1 : wf_config (commit_xy_independent cfg profile)).
  { unfold commit_xy_independent. now apply commit_xy_scan_wf. }
  assert (H2 : wf_config (commit_resolutions (commit_xy_independent cfg profile) profile)).
  { unfold commit_resolutions.
    apply (foldl_invariant wf_config commit_resolution commit_resolution_wf).
    exact H1. }
  assert (H3 : wf_config (commit_body_led
                            (commit_resolutions (commit_xy_independent cfg profile) profile)
                            profile)).
  { unfold commit_body_led, commit_body_effect.
    destruct (ratbag_profile_get_led profile 0) as [led |]; [| assumption].
    destruct (mode led); assumption. }
  assert (H4 : wf_config (commit_dpi_leds
                            (commit_body_led
                               (commit_resolutions (commit_xy_independent cfg profile) profile)
                               profile) profile)).
  { unfold commit_dpi_leds.
    apply (foldl_invariant wf_config (commit_dpi_led profile) (commit_dpi_led_wf profile)).
    exact H3. }
  exact H4.
Qed.

(** The body of the loop on a resolution with [dpi_x = 0], in either mode:
    the first raw byte of the slot becomes 0xFF and the mask is not
    touched. *)
Lemma commit_resolution_disabled_raw c res :
  length (dpi c) = 16%nat -> (index res < 8)%nat -> dpi_x res = 0 ->
  dpi (commit_resolution c res)
    !! (if Z.testbit (config c) 7 then 2 * index res else index res)%nat = Some 0xFF /\
  dpi_enabled (commit_resolution c res) = dpi_enabled c.
Proof.
  intros Hlen Hidx Hx. unfold commit_resolution, slot_enabled.
  rewrite truthy_xy_independent, Hx. change (truthy 0) with false. cbn [andb].
  change (raw_dpi_byte 0) with 255.
  destruct (Z.testbit (config c) 7); cbn [set_dpi dpi dpi_enabled];
    (split; [| reflexivity]).
  - rewrite list_lookup_insert_ne by lia.
    replace (index res * 2)%nat with (2 * index res)%nat by lia.
    apply list_lookup_insert_eq. lia.
  - apply list_lookup_insert_eq. lia.
Qed.

(** C10.  For a resolution with [dpi_x = 0] commit still writes the slot's
    raw byte: [sinowealth_dpi_to_raw 0] is -1, which the [uint8_t] cell
    keeps as 0xFF.  After commit the cell [dpi[index]] of the configuration
    and the byte of the report sent for it are 0xFF, and the bit of the slot
    in [dpi_enabled] is set.  The body of the loop does so in either mode:
    it writes 0xFF to [dpi[2*index]] when the XY-independent flag is set and
    to [dpi[index]] when it is clear, and leaves the mask alone. *)
Theorem commit_disabled_slot_raw device cfg profile (i : nat) res :
  wf_config cfg -> wf_profile profile ->
  resolutions profile !! i = Some res ->
  dpi_x res = 0 ->
  sinowealth_dpi_to_raw 0 = -1 /\
  to_uint8 (-1) = 0xFF /\
  dpi (commit_drv_config (sinowealth_commit device cfg profile)) !! i = Some 0xFF /\
  commit_sent (sinowealth_commit device cfg profile) !! (13 + i)%nat = Some 0xFF /\
  Z.testbit (dpi_enabled (commit_drv_config (sinowealth_commit device cfg profile)))
    (Z.of_nat i) = true /\
  (forall c, length (dpi c) = 16%nat ->
     dpi (commit_resolution c res)
       !! (if Z.testbit (config c) 7 then 2 * i else i)%nat = Some 0xFF /\
     dpi_enabled (commit_resolution c res) = dpi_enabled c).
Proof.
  intros Hcfg Hwf Hres Hx.
  split; [reflexivity |]. split; [reflexivity |].
  rewrite commit_drv_config_eq, commit_sent_eq.
  destruct (commit_config_slot cfg profile i res Hcfg Hwf Hres) as [Hbyte Hbit].
  destruct (wf_profile_index profile i res Hwf Hres) as [Hidx Hlt].
  rewrite Hx in Hbyte. change (raw_dpi_byte 0) with 255 in Hbyte.
  split; [assumption |]. split; [| split].
  - rewrite commit_data_structured by (try apply commit_config_wf; try assumption; lia).
    rewrite config_bytes_dpi by (try apply commit_config_wf; try assumption; lia).
    assumption.
  - rewrite Hbit. unfold slot_enabled, truthy. rewrite Hx. reflexivity.
  - intros c Hlen. rewrite <- Hidx.
    apply commit_resolution_disabled_raw; [assumption | lia | assumption].
Qed.

Lemma commit_disabled_slot_raw_witness :
  (wf_config zero_config /\
   wf_profile (profile_with_dpis [(800, 800); (0, 0)]) /\
   resolutions (profile_with_dpis [(800, 800); (0, 0)]) !! 1%nat =
     Some (set_dpi_xy 0 0 (blank_resolution 1)) /\
   dpi_x (set_dpi_xy 0 0 (blank_resolution 1)) = 0) /\
  dpi (commit_drv_config
         (sinowealth_commit (device_writing 520) zero_config
            (profile_with_dpis [(800, 800); (0, 0)]))) !! 1%nat = Some 0xFF.
Proof.
  assert (Hcfg : wf_config zero_config) by (repeat split; reflexivity).
  assert (Hwf : wf_profile (profile_with_dpis [(800, 800); (0, 0)]))
    by (repeat split; reflexivity).
  assert (Hres : resolutions (profile_with_dpis [(800, 800); (0, 0)]) !! 1%nat =
                 Some (set_dpi_xy 0 0 (blank_resolution 1))) by reflexivity.
  assert (Hx : dpi_x (set_dpi_xy 0 0 (blank_resolution 1)) = 0) by reflexivity.
  split; [repeat split; assumption |].
  exact (proj1 (proj2 (proj2 (commit_disabled_slot_raw (device_writing 520) _ _ _ _
                                Hcfg Hwf Hres Hx)))).
Defined.

(** ** Commit: the report written *)

(** C9.  [sinowealth_commit] hands the transport one feature report with
    the id 0x04 and exactly 520 bytes: the first 97 are the byte image of
    the configuration, with [config_write] (offset 3) set to 0x7b, and every
    byte from offset 97 on is zero.  It returns 0 when the transport reports
    520 bytes written and -1 for every other return value. *)
Theorem commit_report_written device cfg profile :
  wf_config cfg ->
  let result := sinowealth_commit device cfg profile in
  commit_report_id result = SINOWEALTH_REPORT_ID_CONFIG /\
  length (commit_sent result) = 520%nat /\
  take 97 (commit_sent result) = config_bytes (commit_drv_config result) /\
  config_write (commit_drv_config result) = 0x7b /\
  commit_sent result !! 3%nat = Some 0x7b /\
  (forall i : nat, (97 <= i < 520)%nat -> commit_sent result !! i = Some 0) /\
  commit_rc result =
    (if ratbag_hidraw_set_feature_report device SINOWEALTH_REPORT_ID_CONFIG
          (commit_sent result) =? 520
     then 0 else -1).
Proof.
  intros Hcfg result. subst result.
  pose proof (commit_config_wf cfg profile Hcfg) as Hwf.
  pose proof (length_config_bytes _ Hwf) as Hlen.
  rewrite commit_drv_config_eq, commit_sent_eq.
  assert (Hdata : commit_data (commit_config cfg profile) =
                  config_bytes (commit_config cfg profile) ++ replicate 423 0).
  { unfold commit_data, memcpy, sizeof_config. change (Z.to_nat 97) with 97%nat.
    rewrite take_ge by lia. reflexivity. }
  split.
  { unfold sinowealth_commit. now destruct (negb _). }
  split.
  { rewrite Hdata, length_app, Hlen, length_replicate. reflexivity. }
  split.
  { rewrite Hdata, take_app_length' by (symmetry; assumption). reflexivity. }
  split; [reflexivity |]. split.
  { rewrite commit_data_structured by (assumption || lia). reflexivity. }
  split.
  { intros i Hi. rewrite Hdata, lookup_app_r by lia.
    apply lookup_replicate_2. lia. }
  unfold sinowealth_commit.
  destruct (ratbag_hidraw_set_feature_report device _ _ =? SINOWEALTH_CONFIG_SIZE) eqn:Hrc;
    cbn [negb commit_rc commit_sent];
    change SINOWEALTH_CONFIG_SIZE with 520 in Hrc; now rewrite Hrc.
Qed.

Lemma commit_report_written_witness :
  wf_config zero_config /\
  commit_rc (sinowealth_commit (device_writing 519) zero_config blank_profile) = -1 /\
  commit_rc (sinowealth_commit (device_writing 520) zero_config blank_profile) = 0.
Proof.
  assert (Hcfg : wf_config zero_config) by (repeat split; reflexivity).
  split; [assumption |]. split.
  - exact (proj2 (proj2 (proj2 (proj2 (proj2 (proj2
      (commit_report_written (device_writing 519) zero_config blank_profile Hcfg))))))).
  - exact (proj2 (proj2 (proj2 (proj2 (proj2 (proj2
      (commit_report_written (device_writing 520) zero_config blank_profile Hcfg))))))).
Defined.

(** ** Read: the DPI of a slot *)

Lemma is_byte_lookup_total (l : list Z) (k : nat) :
  Forall is_byte l -> is_byte (l !!! k).
Proof.
  intros Hl. rewrite list_lookup_total_alt.
  destruct (l !! k) as [x |] eqn:Hk; simpl.
  - eapply Forall_lookup_1; eassumption.
  - unfold is_byte. change (@inhabitant Z _) with 0. lia.
Qed.

Lemma raw_to_dpi_unsigned (raw : Z) :
  is_byte raw -> to_uint (sinowealth_raw_to_dpi raw) = sinowealth_raw_to_dpi raw.
Proof.
  intros Hraw. rewrite raw_to_dpi_byte by assumption.
  unfold sinowealth_raw_to_dpi, is_byte in *. rewrite to_int_small; lia.
Qed.

(** C5.  Lines 205-211 of a successful profile read decode slot [i] as
    follows: with the XY-independent bit (0x80, bit 7) of the config byte
    set, [dpi_x] comes from the raw byte [dpi[2*i]] and [dpi_y] from
    [dpi[2*i+1]]; with the bit clear, both come from the one raw byte
    [dpi[i]].  These are the values of the resolution read when the slot is
    not disabled in [dpi_enabled]. *)
Theorem read_slot_decoding device cfg0 profile (i : nat) res0 res :
  wf_profile profile ->
  read_rc (sinowealth_read_profile device cfg0 profile) = 0 ->
  Forall is_byte (dpi (read_config (sinowealth_read_profile device cfg0 profile))) ->
  resolutions profile !! i = Some res0 ->
  resolutions (read_profile (sinowealth_read_profile device cfg0 profile)) !! i
    = Some res ->
  let cfg := read_config (sinowealth_read_profile device cfg0 profile) in
  let decoded := read_resolution_dpi cfg res0 in
  (Z.testbit (config cfg) 7 = true ->
     dpi_x decoded = sinowealth_raw_to_dpi (dpi cfg !!! (2 * i)%nat) /\
     dpi_y decoded = sinowealth_raw_to_dpi (dpi cfg !!! (2 * i + 1)%nat)) /\
  (Z.testbit (config cfg) 7 = false ->
     dpi_x decoded = sinowealth_raw_to_dpi (dpi cfg !!! i) /\
     dpi_y decoded = sinowealth_raw_to_dpi (dpi cfg !!! i)) /\
  (Z.testbit (dpi_enabled cfg) (Z.of_nat i) = false ->
     dpi_x res = dpi_x decoded /\ dpi_y res = dpi_y decoded).
Proof.
  intros Hwf Hrc Hbytes Hres0 Hres cfg decoded. subst decoded.
  destruct (read_resolution_lookup device cfg0 profile i res Hwf Hrc Hres)
    as (res0' & Hres0' & Hidx & Hlt & ->).
  fold cfg in Hbytes |- *.
  rewrite Hres0 in Hres0'. injection Hres0' as <-.
  unfold read_resolution_dpi. rewrite truthy_xy_independent, Hidx.
  replace (i * 2)%nat with (2 * i)%nat by lia.
  split; [| split].
  - intros ->. cbn [set_dpi_xy dpi_x dpi_y].
    rewrite !raw_to_dpi_unsigned by (apply is_byte_lookup_total; assumption).
    split; reflexivity.
  - intros ->. cbn [set_dpi_xy dpi_x dpi_y].
    rewrite !raw_to_dpi_unsigned by (apply is_byte_lookup_total; assumption).
    split; reflexivity.
  - intros Hbit.
    destruct (read_resolution_dpi_xy cfg generate_dpi_list res0) as [-> ->].
    rewrite read_resolution_disabled_bit
      by (rewrite read_resolution_dpi_index; lia).
    rewrite read_resolution_dpi_index, Hidx, Hbit.
    unfold read_resolution_dpi. rewrite truthy_xy_independent, Hidx.
    replace (i * 2)%nat with (2 * i)%nat by lia.
    split; reflexivity.
Qed.

Lemma read_slot_decoding_witness :
  (wf_profile blank_profile /\
   read_rc (sample_read sample_report_xy) = 0 /\
   Forall is_byte (dpi (read_config (sample_read sample_report_xy))) /\
   resolutions blank_profile !! 0%nat = Some (blank_resolution 0) /\
   resolutions (read_profile (sample_read sample_report_xy)) !! 0%nat =
     Some (read_resolution (config_of_bytes sample_report_xy) generate_dpi_list
             (blank_resolution 0)) /\
   Z.testbit (config (read_config (sample_read sample_report_xy))) 7 = true /\
   Z.testbit (dpi_enabled (read_config (sample_read sample_report_xy))) (Z.of_nat 0)
     = false) /\
  dpi_x (read_resolution_dpi (read_config (sample_read sample_report_xy))
           (blank_resolution 0)) = 800 /\
  dpi_y (read_resolution_dpi (read_config (sample_read sample_report_xy))
           (blank_resolution 0)) = 400 /\
  dpi_x (read_resolution (config_of_bytes sample_report_xy) generate_dpi_list
           (blank_resolution 0)) = 800.
Proof.
  assert (Hwf : wf_profile blank_profile) by (repeat split; reflexivity).
  assert (Hrc : read_rc (sample_read sample_report_xy) = 0) by (vm_compute; reflexivity).
  assert (Hbytes : Forall is_byte (dpi (read_config (sample_read sample_report_xy)))).
  { vm_compute. repeat constructor; discriminate. }
  assert (Hres0 : resolutions blank_profile !! 0%nat = Some (blank_resolution 0))
    by reflexivity.
  assert (Hres : resolutions (read_profile (sample_read sample_report_xy)) !! 0%nat =
                 Some (read_resolution (config_of_bytes sample_report_xy)
                         generate_dpi_list (blank_resolution 0)))
    by (vm_compute; reflexivity).
  assert (Hxy : Z.testbit (config (read_config (sample_read sample_report_xy))) 7 = true)
    by (vm_compute; reflexivity).
  assert (Hen : Z.testbit (dpi_enabled (read_config (sample_read sample_report_xy)))
                  (Z.of_nat 0) = false) by (vm_compute; reflexivity).
  pose proof (read_slot_decoding _ _ _ _ _ _ Hwf Hrc Hbytes Hres0 Hres)
    as (Hindep & _ & Henabled).
  split; [repeat split; assumption |].
  destruct (Hindep Hxy) as [Hx Hy]. destruct (Henabled Hen) as [Hx' _].
  split; [| split].
  - etransitivity; [exact Hx | reflexivity].
  - etransitivity; [exact Hy | reflexivity].
  - etransitivity; [exact Hx' |]. etransitivity; [exact Hx | reflexivity].
Defined.

(** ** Lighting *)

Lemma commit_body_led_effect cfg profile led :
  leds profile !! 0%nat = Some led ->
  commit_body_led cfg profile = commit_body_effect cfg led.
Proof.
  intros Hled. unfold commit_body_led, ratbag_profile_get_led. now rewrite Hled.
Qed.

(** C6.  The lighting mapping is lossy the documented way.  A successful
    read gives the body LED the mode off for the effect OFF, on for SINGLE
    with the three bytes of [single_color] as its red, green and blue,
    breathing for BREATHING1 with the three bytes of [breathing1_color] as
    its color, and cycle for each of GLORIOUS, BREATHING, BREATHING7, TAIL,
    RAVE and WAVE.  Commit writes OFF for off, SINGLE for on with the red,
    green and blue of the LED, each modulo 256, in [single_color],
    BREATHING1 for breathing with the same three bytes in
    [breathing1_color], and GLORIOUS (which is not WAVE) for cycle.  So a
    report read with WAVE is committed back with GLORIOUS. *)
Theorem lighting_mapping_lossy :
  (forall device cfg0 profile,
     wf_profile profile ->
     let result := sinowealth_read_profile device cfg0 profile in
     read_rc result = 0 ->
     exists led,
       leds (read_profile result) !! 0%nat = Some led /\
       (rgb_effect (read_config result) = RGB_OFF -> mode led = RATBAG_LED_OFF) /\
       (rgb_effect (read_config result) = RGB_SINGLE ->
          mode led = RATBAG_LED_ON /\
          color led =
            mkColor (r (single_color (read_config result)))
                    (g (single_color (read_config result)))
                    (b (single_color (read_config result)))) /\
       (In (rgb_effect (read_config result))
           [RGB_GLORIOUS; RGB_BREATHING; RGB_BREATHING7; RGB_TAIL; RGB_RAVE; RGB_WAVE] ->
          mode led = RATBAG_LED_CYCLE) /\
       (rgb_effect (read_config result) = RGB_BREATHING1 ->
          mode led = RATBAG_LED_BREATHING /\
          color led =
            mkColor (r (breathing1_color (read_config result)))
                    (g (breathing1_color (read_config result)))
                    (b (breathing1_color (read_config result))))) /\
  (forall device cfg profile led,
     leds profile !! 0%nat = Some led ->
     let cfg' := commit_drv_config (sinowealth_commit device cfg profile) in
     (mode led = RATBAG_LED_OFF -> rgb_effect cfg' = RGB_OFF) /\
     (mode led = RATBAG_LED_ON ->
        rgb_effect cfg' = RGB_SINGLE /\
        single_color cfg' =
          mkRGB8 (red (color led) mod 256) (green (color led) mod 256)
                 (blue (color led) mod 256)) /\
     (mode led = RATBAG_LED_CYCLE ->
        rgb_effect cfg' = RGB_GLORIOUS /\ rgb_effect cfg' <> RGB_WAVE) /\
     (mode led = RATBAG_LED_BREATHING ->
        rgb_effect cfg' = RGB_BREATHING1 /\
        breathing1_color cfg' =
          mkRGB8 (red (color led) mod 256) (green (color led) mod 256)
                 (blue (color led) mod 256))) /\
  (forall device device' cfg0 profile,
     wf_profile profile ->
     let result := sinowealth_read_profile device cfg0 profile in
     read_rc result = 0 ->
     rgb_effect (read_config result) = RGB_WAVE ->
     rgb_effect (commit_drv_config
                   (sinowealth_commit device' (read_config result) (read_profile result)))
       = RGB_GLORIOUS).
Proof.
  assert (Hread : forall device cfg0 profile,
            wf_profile profile ->
            read_rc (sinowealth_read_profile device cfg0 profile) = 0 ->
            exists led0,
              leds (read_profile (sinowealth_read_profile device cfg0 profile)) !! 0%nat
              = Some (read_body_effect
                        (read_config (sinowealth_read_profile device cfg0 profile)) led0)).
  { intros device cfg0 profile (_ & _ & Hleds) Hrc.
    destruct (read_profile_success device cfg0 profile Hrc) as [Hp _].
    destruct (lookup_lt_is_Some_2 (leds profile) 0) as [led0 Hled0];
      [rewrite Hleds; unfold SINOWEALTH_NUM_DPIS; lia |].
    rewrite Hp, read_body_led_eq, Hled0. cbn [fmap option_fmap option_map].
    unfold read_body_led. eauto. }
  split; [| split].
  - intros device cfg0 profile Hwf result Hrc. subst result.
    destruct (Hread device cfg0 profile Hwf Hrc) as [led0 Hled].
    eexists. split; [exact Hled |].
    unfold read_body_effect. split; [| split; [| split]].
    + intros ->. reflexivity.
    + intros ->. split; reflexivity.
    + intros [<- | [<- | [<- | [<- | [<- | [<- | []]]]]]]; reflexivity.
    + intros ->. split; reflexivity.
  - intros device cfg profile led Hled cfg'. subst cfg'.
    rewrite commit_drv_config_eq, commit_config_rgb_effect,
      commit_config_single_color, commit_config_breathing1_color.
    rewrite (commit_body_led_effect _ _ _ Hled). unfold commit_body_effect.
    split; [| split; [| split]]; intros ->.
    + reflexivity.
    + split; reflexivity.
    + split; [reflexivity | discriminate].
    + split; reflexivity.
  - intros device device' cfg0 profile Hwf result Hrc Hwave. subst result.
    destruct (Hread device cfg0 profile Hwf Hrc) as [led0 Hled].
    rewrite commit_drv_config_eq, commit_config_rgb_effect.
    rewrite (commit_body_led_effect _ _ _ Hled).
    unfold commit_body_effect, read_body_effect. rewrite Hwave. reflexivity.
Qed.

Lemma lighting_mapping_lossy_witness :
  (wf_profile blank_profile /\
   read_rc (sample_read sample_report) = 0 /\
   rgb_effect (read_config (sample_read sample_report)) = RGB_SINGLE /\
   leds (profile_with_leds sample_leds) !! 0%nat =
     Some (set_color (mkColor 300 128 7) (set_mode RATBAG_LED_BREATHING blank_led)) /\
   leds (profile_with_leds [(RATBAG_LED_ON, mkColor 255 128 0)]) !! 0%nat =
     Some (set_color (mkColor 255 128 0) (set_mode RATBAG_LED_ON blank_led)) /\
   read_rc (sample_read sample_report_wave) = 0 /\
   rgb_effect (read_config (sample_read sample_report_wave)) = RGB_WAVE) /\
  (exists led,
     leds (read_profile (sample_read sample_report)) !! 0%nat = Some led /\
     mode led = RATBAG_LED_ON /\ color led = mkColor 255 0 0) /\
  (rgb_effect
     (commit_drv_config
        (sinowealth_commit (device_writing 520) zero_config
           (profile_with_leds sample_leds))) = RGB_BREATHING1 /\
   breathing1_color
     (commit_drv_config
        (sinowealth_commit (device_writing 520) zero_config
           (profile_with_leds sample_leds))) = mkRGB8 44 128 7) /\
  (rgb_effect
     (commit_drv_config
        (sinowealth_commit (device_writing 520) zero_config
           (profile_with_leds [(RATBAG_LED_ON, mkColor 255 128 0)]))) = RGB_SINGLE /\
   single_color
     (commit_drv_config
        (sinowealth_commit (device_writing 520) zero_config
           (profile_with_leds [(RATBAG_LED_ON, mkColor 255 128 0)]))) = mkRGB8 255 128 0) /\
  rgb_effect
    (commit_drv_config
       (sinowealth_commit (device_writing 520)
          (read_config (sample_read sample_report_wave))
          (read_profile (sample_read sample_report_wave)))) = RGB_GLORIOUS.
Proof.
  assert (Hwf : wf_profile blank_profile) by (repeat split; reflexivity).
  assert (Hrc : read_rc (sample_read sample_report) = 0) by (vm_compute; reflexivity).
  assert (Hsingle : rgb_effect (read_config (sample_read sample_report)) = RGB_SINGLE)
    by (vm_compute; reflexivity).
  assert (Hbre : leds (profile_with_leds sample_leds) !! 0%nat =
                 Some (set_color (mkColor 300 128 7)
                         (set_mode RATBAG_LED_BREATHING blank_led))) by reflexivity.
  assert (Hon : leds (profile_with_leds [(RATBAG_LED_ON, mkColor 255 128 0)]) !! 0%nat =
                Some (set_color (mkColor 255 128 0) (set_mode RATBAG_LED_ON blank_led)))
    by reflexivity.
  assert (Hrcw : read_rc (sample_read sample_report_wave) = 0)
    by (vm_compute; reflexivity).
  assert (Hwave : rgb_effect (read_config (sample_read sample_report_wave)) = RGB_WAVE)
    by (vm_compute; reflexivity).
  split; [repeat split; assumption |].
  destruct lighting_mapping_lossy as (Hread & Hcommit & Hloss).
  split; [| split; [| split]].
  - destruct (Hread _ zero_config _ Hwf Hrc) as (led & Hled & _ & Hs & _).
    destruct (Hs Hsingle) as [Hmode Hcolor].
    exists led. split; [exact Hled |]. split; [exact Hmode |].
    etransitivity; [exact Hcolor |]. vm_compute. reflexivity.
  - destruct (Hcommit (device_writing 520) zero_config _ _ Hbre) as (_ & _ & _ & Hb).
    destruct (Hb eq_refl) as [Heff Hcol].
    split; [exact Heff |]. etransitivity; [exact Hcol | reflexivity].
  - destruct (Hcommit (device_writing 520) zero_config _ _ Hon) as (_ & Ho & _).
    destruct (Ho eq_refl) as [Heff Hcol].
    split; [exact Heff |]. etransitivity; [exact Hcol | reflexivity].
  - exact (Hloss _ (device_writing 520) _ _ Hwf Hrcw Hwave).
Defined.

(** ** Read: the length check *)

Lemma to_size_t_negative (rc : Z) : - 2 ^ 31 <= rc < 0 -> to_size_t rc = 2 ^ 64 + rc.
Proof.
  intros Hrc. unfold to_size_t.
  rewrite <- (Z.mod_add rc 1 (2 ^ 64)) by lia.
  rewrite Z.mod_small; lia.
Qed.

(** A read that returns fewer than 97 bytes, but no error, fails and
    leaves the profile and the stored configuration alone. *)
Lemma read_short_rc_rejected rc data cfg0 profile :
  0 <= rc < sizeof_config ->
  sinowealth_read_profile (device_answering rc data) cfg0 profile =
  mkRead (-1) cfg0 profile.
Proof.
  intros Hrc. unfold sinowealth_read_profile, sizeof_config in *.
  cbn [device_answering ratbag_hidraw_set_feature_report
       ratbag_hidraw_get_feature_report length].
  change (to_size_t (Z.of_nat 6) =? Z.of_nat 6) with true. cbn [negb].
  unfold to_size_t. rewrite Z.mod_small by lia.
  replace (rc <? 97) with true by (symmetry; apply Z.ltb_lt; lia).
  reflexivity.
Qed.

(** A negative return value of the transport passes the check of line 186:
    converted to [size_t] it is larger than the size of the struct. *)
Lemma read_negative_rc_accepted rc data cfg0 profile :
  - 2 ^ 31 <= rc < 0 ->
  sinowealth_read_profile (device_answering rc data) cfg0 profile =
  mkRead 0 (config_of_bytes data)
    (read_profile_from_config (config_of_bytes data) profile).
Proof.
  intros Hrc. unfold sinowealth_read_profile.
  cbn [device_answering ratbag_hidraw_set_feature_report
       ratbag_hidraw_get_feature_report length].
  change (to_size_t (Z.of_nat 6) =? Z.of_nat 6) with true. cbn [negb].
  rewrite to_size_t_negative by assumption.
  replace (2 ^ 64 + rc <? sizeof_config) with false
    by (symmetry; apply Z.ltb_ge; unfold sizeof_config; lia).
  reflexivity.
Qed.

(** C3.  When the transport read fails with the error -5 (-EIO) and leaves
    the zeroed buffer untouched, [sinowealth_read_profile] does not fail: it
    returns 0, stores the all-zero configuration and fills the profile from
    it (profile active, every resolution at 100 DPI).  A short read of 96
    bytes is rejected with -1 and leaves the profile as it was. *)
Theorem read_profile_negative_rc :
  let failed :=
    sinowealth_read_profile (device_answering (-5) (zalloc SINOWEALTH_CONFIG_SIZE))
      zero_config blank_profile in
  let short :=
    sinowealth_read_profile (device_answering 96 (zalloc SINOWEALTH_CONFIG_SIZE))
      zero_config blank_profile in
  to_size_t (-5) = 18446744073709551611 /\
  read_rc failed = 0 /\
  profile_is_active (read_profile failed) = true /\
  map (fun res => (dpi_x res, dpi_y res)) (resolutions (read_profile failed)) =
    replicate 6 (100, 100) /\
  read_rc short = -1 /\
  read_profile short = blank_profile.
Proof.
  cbv zeta. repeat split; vm_compute; reflexivity.
Qed.

(** * Further properties of the driver *)

(** ** NumericCodec: the other direction *)

Lemma raw_to_dpi_value (raw : Z) :
  is_byte raw -> sinowealth_raw_to_dpi raw = (raw + 1) * 100.
Proof.
  unfold is_byte, sinowealth_raw_to_dpi. intros Hraw. apply to_int_small. lia.
Qed.

(** X1.  Every raw byte decodes to a multiple of 100 between 100 and 25600, and
    encoding that value gives the byte back, also through the [unsigned int]
    field of the resolution and the [uint8_t] cell of the report. *)
Theorem dpi_to_raw_raw_to_dpi (raw : Z) :
  is_byte raw ->
  100 <= sinowealth_raw_to_dpi raw <= 25600 /\
  sinowealth_raw_to_dpi raw mod 100 = 0 /\
  sinowealth_dpi_to_raw (sinowealth_raw_to_dpi raw) = raw /\
  raw_dpi_byte (to_uint (sinowealth_raw_to_dpi raw)) = raw.
Proof.
  intros Hraw. pose proof Hraw as Hrange. unfold is_byte in Hrange.
  rewrite raw_to_dpi_unsigned by assumption.
  rewrite raw_to_dpi_value by assumption.
  assert (Hq : Z.quot ((raw + 1) * 100) 100 = raw + 1) by (apply Z.quot_mul; lia).
  assert (Hback : sinowealth_dpi_to_raw ((raw + 1) * 100) = raw).
  { unfold sinowealth_dpi_to_raw. rewrite Hq, to_int_small; lia. }
  split; [lia |]. split; [apply Z.mod_mul; lia |]. split; [assumption |].
  unfold raw_dpi_byte. rewrite (to_int_small ((raw + 1) * 100)) by lia.
  rewrite Hback. now apply to_uint8_small.
Qed.

Lemma dpi_to_raw_raw_to_dpi_witness :
  is_byte 119 /\ sinowealth_dpi_to_raw (sinowealth_raw_to_dpi 119) = 119.
Proof.
  assert (Hraw : is_byte 119) by (unfold is_byte; lia).
  split; [assumption |].
  exact (proj1 (proj2 (proj2 (dpi_to_raw_raw_to_dpi 119 Hraw)))).
Defined.

Lemma raw_dpi_byte_floor (d : Z) :
  100 <= d < 25700 -> raw_dpi_byte d = d / 100 - 1 /\ is_byte (d / 100 - 1).
Proof.
  intros Hd. unfold raw_dpi_byte, sinowealth_dpi_to_raw.
  rewrite (to_int_small d) by lia.
  rewrite Z.quot_div_nonneg by lia.
  assert (1 <= d / 100) by (apply Z.div_le_lower_bound; lia).
  assert (d / 100 < 257) by (apply Z.div_lt_upper_bound; lia).
  rewrite to_int_small by lia.
  split; [apply to_uint8_small |]; unfold is_byte; lia.
Qed.

(** X2.  What the encoding does to a DPI that is no multiple of 100, and below
    100: a value from 100 to 25699 is rounded down to the multiple of 100
    below it; a value from 0 to 99 is stored as 0xFF, which decodes to
    25600. *)
Theorem dpi_to_raw_rounds_down (d : Z) :
  (100 <= d < 25700 ->
   sinowealth_raw_to_dpi (raw_dpi_byte d) = d - d mod 100) /\
  (0 <= d < 100 ->
   raw_dpi_byte d = 0xFF /\ sinowealth_raw_to_dpi (raw_dpi_byte d) = 25600).
Proof.
  split.
  - intros Hd. destruct (raw_dpi_byte_floor d Hd) as [-> Hbyte].
    rewrite raw_to_dpi_value by assumption.
    pose proof (Z.div_mod d 100 ltac:(lia)). lia.
  - intros Hd.
    assert (Hraw : raw_dpi_byte d = 255).
    { unfold raw_dpi_byte, sinowealth_dpi_to_raw.
      rewrite (to_int_small d) by lia.
      rewrite Z.quot_small by lia. reflexivity. }
    rewrite Hraw. split; reflexivity.
Qed.

Lemma dpi_to_raw_rounds_down_witness :
  (100 <= 850 < 25700 /\ 0 <= 50 < 100) /\
  sinowealth_raw_to_dpi (raw_dpi_byte 850) = 800 /\
  raw_dpi_byte 50 = 0xFF.
Proof.
  assert (H1 : 100 <= 850 < 25700) by lia.
  assert (H2 : 0 <= 50 < 100) by lia.
  split; [split; assumption |]. split.
  - exact (proj1 (dpi_to_raw_rounds_down 850) H1).
  - exact (proj1 (proj2 (dpi_to_raw_rounds_down 50) H2)).
Defined.

(** ** Colors *)

(** X3.  A color of the report becomes the same three bytes in the profile and
    comes back unchanged; a color of the profile is cut to eight bits per
    channel on the way to the report, so it comes back unchanged exactly
    when its channels are bytes. *)
Theorem color_round_trip :
  (forall raw, is_byte (r raw) -> is_byte (g raw) -> is_byte (b raw) ->
     sinowealth_color_to_raw (sinowealth_raw_to_color raw) = raw) /\
  (forall c,
     sinowealth_raw_to_color (sinowealth_color_to_raw c) =
     mkColor (red c mod 256) (green c mod 256) (blue c mod 256)) /\
  (forall c,
     sinowealth_raw_to_color (sinowealth_color_to_raw c) = c <->
     is_byte (red c) /\ is_byte (green c) /\ is_byte (blue c)).
Proof.
  split; [| split].
  - intros [x y z]. cbn [r g b]. intros Hx Hy Hz.
    unfold sinowealth_color_to_raw, sinowealth_raw_to_color. cbn [red green blue].
    now rewrite !to_uint8_small.
  - intros [x y z]. reflexivity.
  - intros [x y z]. cbn [red green blue].
    unfold sinowealth_color_to_raw, sinowealth_raw_to_color. cbn [r g b red green blue].
    split.
    + intros Heq. injection Heq as Hx Hy Hz.
      rewrite <- Hx, <- Hy, <- Hz at 1.
      repeat split; apply to_uint8_is_byte.
    + intros (Hx & Hy & Hz). now rewrite !to_uint8_small.
Qed.

Lemma color_round_trip_witness :
  (is_byte 255 /\ is_byte 0) /\
  sinowealth_color_to_raw (sinowealth_raw_to_color (mkRGB8 255 0 0)) = mkRGB8 255 0 0.
Proof.
  assert (H255 : is_byte 255) by (unfold is_byte; lia).
  assert (H0 : is_byte 0) by (unfold is_byte; lia).
  split; [split; assumption |].
  exact (proj1 color_round_trip (mkRGB8 255 0 0) H255 H0 H0).
Defined.

(** ** Read: the outcome *)

Lemma to_size_t_int (rc n : Z) :
  - 2 ^ 31 <= rc < 2 ^ 31 -> 0 <= n < 2 ^ 31 ->
  (to_size_t rc =? n) = (rc =? n) /\
  (to_size_t rc <? n) = (0 <=? rc) && (rc <? n).
Proof.
  intros Hrc Hn. destruct (Z_lt_le_dec rc 0) as [Hneg | Hpos].
  - rewrite to_size_t_negative by lia. split.
    + transitivity false; [apply Z.eqb_neq | symmetry; apply Z.eqb_neq]; lia.
    + transitivity false; [apply Z.ltb_ge; lia |].
      symmetry. apply andb_false_iff. left. apply Z.leb_gt. lia.
  - unfold to_size_t. rewrite Z.mod_small by lia. split; [reflexivity |].
    replace (0 <=? rc) with true by (symmetry; apply Z.leb_le; lia).
    reflexivity.
Qed.

(** X4.  The outcome of [sinowealth_read_profile] for every pair of return
    values of the transport.  The read sends the six bytes 05 11 00 00 00 00
    to report 5 and asks for report 4 into a zeroed buffer of 520 bytes.  It
    succeeds exactly when the write returns 6 and the read returns at least
    97 or a negative value; it then stores the struct decoded from the
    buffer and fills the profile from it.  In every other case it returns -1
    and leaves the stored configuration and the profile as they were. *)
Theorem read_outcome device cfg0 profile :
  let cmd_rc :=
    ratbag_hidraw_set_feature_report device SINOWEALTH_REPORT_ID_CMD
      [SINOWEALTH_REPORT_ID_CMD; SINOWEALTH_CMD_GET_CONFIG; 0; 0; 0; 0] in
  let answer :=
    ratbag_hidraw_get_feature_report device SINOWEALTH_REPORT_ID_CONFIG
      (replicate 520 0) in
  - 2 ^ 31 <= cmd_rc < 2 ^ 31 ->
  - 2 ^ 31 <= fst answer < 2 ^ 31 ->
  sinowealth_read_profile device cfg0 profile =
  if (cmd_rc =? 6) && ((fst answer <? 0) || (97 <=? fst answer))
  then mkRead 0 (config_of_bytes (snd answer))
         (read_profile_from_config (config_of_bytes (snd answer)) profile)
  else mkRead (-1) cfg0 profile.
Proof.
  intros cmd_rc answer Hcmd Hget. unfold sinowealth_read_profile.
  change (zalloc SINOWEALTH_CONFIG_SIZE) with (replicate 520 0).
  fold cmd_rc. fold answer.
  destruct (to_size_t_int cmd_rc 6 Hcmd ltac:(lia)) as [Heq _].
  change (Z.of_nat (length [SINOWEALTH_REPORT_ID_CMD; SINOWEALTH_CMD_GET_CONFIG; 0; 0; 0; 0]))
    with 6.
  rewrite Heq. destruct (cmd_rc =? 6); cbn [negb andb]; [| reflexivity].
  destruct answer as [rc data]. cbn [fst snd] in *.
  destruct (to_size_t_int rc sizeof_config Hget ltac:(unfold sizeof_config; lia))
    as [_ Hlt].
  rewrite Hlt. unfold sizeof_config.
  destruct (Z.ltb_spec rc 0) as [Hneg | Hpos]; cbn [orb].
  - replace (0 <=? rc) with false by (symmetry; apply Z.leb_gt; lia). reflexivity.
  - replace (0 <=? rc) with true by (symmetry; apply Z.leb_le; lia). cbn [andb].
    rewrite (Z.leb_antisym rc 97). now destruct (rc <? 97).
Qed.

Lemma read_outcome_witness :
  (- 2 ^ 31 <= 7 < 2 ^ 31 /\ - 2 ^ 31 <= 520 < 2 ^ 31) /\
  sinowealth_read_profile (device_writing 7) zero_config blank_profile =
  mkRead (-1) zero_config blank_profile.
Proof.
  assert (H1 : - 2 ^ 31 <= 7 < 2 ^ 31) by lia.
  assert (H2 : - 2 ^ 31 <= 520 < 2 ^ 31) by lia.
  split; [split; assumption |].
  exact (read_outcome (device_writing 7) zero_config blank_profile H1 H2).
Defined.

(** ** Read: the profile keeps its shape *)

Lemma read_profile_from_config_leds_length cfg profile :
  length (leds (read_profile_from_config cfg profile)) = length (leds profile).
Proof.
  unfold read_profile_from_config. cbn -[read_body_led read_dpi_led alter].
  now rewrite !length_alter.
Qed.

Lemma read_profile_from_config_wf cfg profile :
  wf_profile profile -> wf_profile (read_profile_from_config cfg profile).
Proof.
  intros (Hlen & Hwf & Hleds). unfold wf_profile, wf_resolutions in *.
  rewrite read_profile_from_config_leds_length, read_resolutions_eq.
  rewrite length_map, map_map.
  rewrite (map_ext _ index (read_resolution_index cfg generate_dpi_list)).
  auto.
Qed.

(** X5.  Whatever the transport answers, [sinowealth_read_profile] keeps the six
    resolutions with their indices and the seven LEDs of the profile. *)
Theorem read_keeps_profile_shape device cfg0 profile :
  wf_profile profile ->
  wf_profile (read_profile (sinowealth_read_profile device cfg0 profile)).
Proof.
  intros Hwf. unfold sinowealth_read_profile.
  destruct (negb _); [assumption |].
  destruct (ratbag_hidraw_get_feature_report _ _ _) as [rc data].
  destruct (to_size_t rc <? sizeof_config); [assumption |].
  cbn [read_profile]. now apply read_profile_from_config_wf.
Qed.

Lemma read_keeps_profile_shape_witness :
  wf_profile blank_profile /\
  wf_profile (read_profile (sample_read sample_report)).
Proof.
  assert (Hwf : wf_profile blank_profile) by (repeat split; reflexivity).
  split; [assumption |].
  exact (read_keeps_profile_shape _ _ _ Hwf).
Defined.

(** ** Read: the LEDs *)

Ltac in_list := repeat first [apply list_elem_of_here | apply list_elem_of_further].

Lemma leds_foldl_with_led (f : nat -> ratbag_led -> ratbag_led) (l : list nat)
    (p : ratbag_profile) (i : nat) :
  NoDup l ->
  leds (foldl (fun p i => with_led i (f i) p) p l) !! i =
  if bool_decide (i ∈ l) then f i <$> (leds p !! i) else leds p !! i.
Proof.
  revert p. induction l as [| a l IH]; intros p Hnd; cbn [foldl].
  - reflexivity.
  - apply NoDup_cons in Hnd as [Ha Hnd]. rewrite IH by assumption.
    unfold with_led. cbn [set_leds leds].
    destruct (decide (i = a)) as [-> | Hne].
    + rewrite (bool_decide_eq_false_2 (a ∈ l)) by assumption.
      rewrite (bool_decide_eq_true_2 (a ∈ a :: l)) by apply list_elem_of_here.
      apply list_lookup_alter_eq.
    + rewrite list_lookup_alter_ne by congruence.
      destruct (decide (i ∈ l)) as [Hin | Hin].
      * rewrite (bool_decide_eq_true_2 (i ∈ l)) by assumption.
        rewrite (bool_decide_eq_true_2 (i ∈ a :: l)) by now apply list_elem_of_further.
        reflexivity.
      * rewrite (bool_decide_eq_false_2 (i ∈ l)) by assumption.
        rewrite (bool_decide_eq_false_2 (i ∈ a :: l)); [reflexivity |].
        rewrite elem_of_cons. tauto.
Qed.

Lemma read_dpi_led_eq cfg profile (i : nat) :
  (1 <= i <= 6)%nat ->
  leds (read_profile_from_config cfg profile) !! i =
  read_dpi_led cfg i <$> (leds profile !! i).
Proof.
  intros Hi. unfold read_profile_from_config.
  cbn [set_profile_is_active leds].
  rewrite (leds_foldl_with_led (read_dpi_led cfg)) by apply NoDup_seq.
  rewrite bool_decide_eq_true_2
    by (apply elem_of_seq; unfold SINOWEALTH_NUM_DPIS; lia).
  unfold with_led. cbn [set_leds leds]. rewrite list_lookup_alter_ne by lia.
  reflexivity.
Qed.

(** X6.  After a successful read each of the six DPI indicator LEDs (LED 1 to 6)
    is an RGB LED of type DPI in mode on, with on among its modes; the red,
    green and blue of LED [i] are the three bytes [r], [g] and [b] of
    [dpi_color[i - 1]]. *)
Theorem read_dpi_indicator_leds device cfg0 profile (i : nat) :
  wf_profile profile ->
  read_rc (sinowealth_read_profile device cfg0 profile) = 0 ->
  (1 <= i <= 6)%nat ->
  exists led,
    leds (read_profile (sinowealth_read_profile device cfg0 profile)) !! i = Some led /\
    led_type led = RATBAG_LED_TYPE_DPI /\
    colordepth led = RATBAG_LED_COLORDEPTH_RGB_888 /\
    mode led = RATBAG_LED_ON /\
    color led =
      mkColor
        (r (dpi_color (read_config (sinowealth_read_profile device cfg0 profile))
              !!! (i - 1)%nat))
        (g (dpi_color (read_config (sinowealth_read_profile device cfg0 profile))
              !!! (i - 1)%nat))
        (b (dpi_color (read_config (sinowealth_read_profile device cfg0 profile))
              !!! (i - 1)%nat)) /\
    RATBAG_LED_ON ∈ modes led.
Proof.
  intros (_ & _ & Hleds) Hrc Hi.
  destruct (read_profile_success device cfg0 profile Hrc) as [Hp _].
  destruct (lookup_lt_is_Some_2 (leds profile) i) as [led0 Hled0];
    [rewrite Hleds; unfold SINOWEALTH_NUM_DPIS; lia |].
  rewrite Hp, read_dpi_led_eq, Hled0 by assumption.
  eexists. split; [reflexivity |].
  unfold read_dpi_led. cbn. repeat split. apply list_elem_of_here.
Qed.

Lemma read_dpi_indicator_leds_witness :
  (wf_profile blank_profile /\ read_rc (sample_read sample_report_colors) = 0 /\
   (1 <= 1 <= 6)%nat) /\
  exists led,
    leds (read_profile (sample_read sample_report_colors)) !! 1%nat = Some led /\
    mode led = RATBAG_LED_ON /\
    color led = mkColor 255 128 7.
Proof.
  assert (Hwf : wf_profile blank_profile) by (repeat split; reflexivity).
  assert (Hrc : read_rc (sample_read sample_report_colors) = 0)
    by (vm_compute; reflexivity).
  assert (Hi : (1 <= 1 <= 6)%nat) by lia.
  split; [repeat split; assumption || lia |].
  destruct (read_dpi_indicator_leds _ _ _ 1%nat Hwf Hrc Hi)
    as (led & Hled & _ & _ & Hmode & Hcolor & _).
  exists led. split; [exact Hled |]. split; [exact Hmode |].
  etransitivity; [exact Hcolor |]. vm_compute. reflexivity.
Defined.

(** X7.  After a successful read the body LED (LED 0) is an RGB LED of type
    side that supports off, on, cycle and breathing.  When the effect byte
    of the report is none of the nine effects the driver knows, the switch
    of lines 232-252 matches no case: the read still succeeds and the LED
    keeps the mode and the color it had before. *)
Theorem read_unknown_effect device cfg0 profile :
  wf_profile profile ->
  read_rc (sinowealth_read_profile device cfg0 profile) = 0 ->
  exists led0 led,
    leds profile !! 0%nat = Some led0 /\
    leds (read_profile (sinowealth_read_profile device cfg0 profile)) !! 0%nat
      = Some led /\
    led_type led = RATBAG_LED_TYPE_SIDE /\
    colordepth led = RATBAG_LED_COLORDEPTH_RGB_888 /\
    (forall m, m ∈ modes led) /\
    (rgb_effect (read_config (sinowealth_read_profile device cfg0 profile))
       ∉ [RGB_OFF; RGB_GLORIOUS; RGB_SINGLE; RGB_BREATHING; RGB_BREATHING7;
          RGB_BREATHING1; RGB_TAIL; RGB_RAVE; RGB_WAVE] ->
     mode led = mode led0 /\ color led = color led0).
Proof.
  intros (_ & _ & Hleds) Hrc.
  destruct (read_profile_success device cfg0 profile Hrc) as [Hp _].
  destruct (lookup_lt_is_Some_2 (leds profile) 0) as [led0 Hled0];
    [rewrite Hleds; unfold SINOWEALTH_NUM_DPIS; lia |].
  rewrite Hp, read_body_led_eq, Hled0. cbn [fmap option_fmap option_map].
  set (cfg := read_config _).
  exists led0, (read_body_led cfg led0). split; [reflexivity |].
  split; [reflexivity |].
  assert (Hshape : forall led1,
            led_type (read_body_effect cfg led1) = led_type led1 /\
            colordepth (read_body_effect cfg led1) = colordepth led1 /\
            modes (read_body_effect cfg led1) = modes led1).
  { intros led1. unfold read_body_effect.
    repeat match goal with
           | |- context [if ?c then _ else _] => destruct c
           end; repeat split; reflexivity. }
  unfold read_body_led. cbv zeta.
  match goal with
  | |- context [read_body_effect cfg ?l] =>
      destruct (Hshape l) as (-> & -> & ->)
  end.
  split; [reflexivity |]. split; [reflexivity |]. split.
  - intros m. cbn [ratbag_led_set_mode_capability modes].
    destruct m; in_list.
  - intros Hunknown. unfold read_body_effect.
    assert (Hne : forall e, e ∈ [RGB_OFF; RGB_GLORIOUS; RGB_SINGLE; RGB_BREATHING;
                                 RGB_BREATHING7; RGB_BREATHING1; RGB_TAIL; RGB_RAVE;
                                 RGB_WAVE] ->
                       (rgb_effect cfg =? e) = false).
    { intros e He. apply Z.eqb_neq. intros Heq. apply Hunknown. now rewrite Heq. }
    rewrite !Hne by in_list. cbn [orb]. split; reflexivity.
Qed.

Lemma read_unknown_effect_witness :
  (wf_profile blank_profile /\
   read_rc (sample_read (<[53%nat := 6]> sample_report)) = 0 /\
   rgb_effect (read_config (sample_read (<[53%nat := 6]> sample_report)))
     ∉ [RGB_OFF; RGB_GLORIOUS; RGB_SINGLE; RGB_BREATHING; RGB_BREATHING7;
        RGB_BREATHING1; RGB_TAIL; RGB_RAVE; RGB_WAVE]) /\
  exists led,
    leds (read_profile (sample_read (<[53%nat := 6]> sample_report))) !! 0%nat
      = Some led /\
    mode led = RATBAG_LED_OFF.
Proof.
  assert (Hwf : wf_profile blank_profile) by (repeat split; reflexivity).
  assert (Hrc : read_rc (sample_read (<[53%nat := 6]> sample_report)) = 0)
    by (vm_compute; reflexivity).
  assert (Hunknown :
            rgb_effect (read_config (sample_read (<[53%nat := 6]> sample_report)))
              ∉ [RGB_OFF; RGB_GLORIOUS; RGB_SINGLE; RGB_BREATHING; RGB_BREATHING7;
                 RGB_BREATHING1; RGB_TAIL; RGB_RAVE; RGB_WAVE]).
  { intros Hin.
    repeat (apply elem_of_cons in Hin as [Hin | Hin];
            [vm_compute in Hin; discriminate Hin |]).
    now apply elem_of_nil in Hin. }
  split; [repeat split; assumption |].
  destruct (read_unknown_effect _ _ _ Hwf Hrc)
    as (led0 & led & Hled0 & Hled & _ & _ & _ & Hkeep).
  exists led. split; [assumption |].
  destruct (Hkeep Hunknown) as [Hmode _]. rewrite Hmode.
  injection Hled0 as <-. reflexivity.
Defined.

(** ** Read: the resolutions *)

Lemma read_success_config device cfg0 profile :
  read_rc (sinowealth_read_profile device cfg0 profile) = 0 ->
  read_config (sinowealth_read_profile device cfg0 profile) =
  config_of_bytes
    (snd (ratbag_hidraw_get_feature_report device SINOWEALTH_REPORT_ID_CONFIG
            (zalloc SINOWEALTH_CONFIG_SIZE))).
Proof.
  unfold sinowealth_read_profile.
  destruct (negb (to_size_t _ =? _)); [discriminate |].
  destruct (ratbag_hidraw_get_feature_report _ _ _) as [rc data].
  destruct (to_size_t rc <? sizeof_config); [discriminate |].
  reflexivity.
Qed.

(** X8.  After a successful read the profile is active and reports at 1000 Hz,
    the only rate it lists; every resolution keeps its index, carries the
    DPI list built by the read and has the capability of separate X and Y
    resolutions. *)
Theorem read_profile_metadata device cfg0 profile (i : nat) res :
  wf_profile profile ->
  read_rc (sinowealth_read_profile device cfg0 profile) = 0 ->
  resolutions (read_profile (sinowealth_read_profile device cfg0 profile)) !! i
    = Some res ->
  profile_is_active (read_profile (sinowealth_read_profile device cfg0 profile)) = true /\
  report_rate (read_profile (sinowealth_read_profile device cfg0 profile)) = 1000 /\
  report_rates (read_profile (sinowealth_read_profile device cfg0 profile)) = [1000] /\
  index res = i /\
  dpis res = generate_dpi_list /\
  RATBAG_RESOLUTION_CAP_SEPARATE_XY_RESOLUTION ∈ capabilities res.
Proof.
  intros Hwf Hrc Hres.
  destruct (read_resolution_lookup device cfg0 profile i res Hwf Hrc Hres)
    as (res0 & _ & Hidx & _ & ->).
  destruct (read_profile_success device cfg0 profile Hrc) as [-> _].
  split; [reflexivity |]. split; [reflexivity |]. split; [reflexivity |].
  rewrite read_resolution_index. split; [assumption |]. split; [reflexivity |].
  apply list_elem_of_here.
Qed.

Lemma read_profile_metadata_witness :
  (wf_profile blank_profile /\
   read_rc (sample_read sample_report) = 0 /\
   resolutions (read_profile (sample_read sample_report)) !! 3%nat =
     Some (read_resolution (config_of_bytes sample_report) generate_dpi_list
             (blank_resolution 3))) /\
  report_rate (read_profile (sample_read sample_report)) = 1000.
Proof.
  assert (Hwf : wf_profile blank_profile) by (repeat split; reflexivity).
  assert (Hrc : read_rc (sample_read sample_report) = 0) by (vm_compute; reflexivity).
  assert (Hres : resolutions (read_profile (sample_read sample_report)) !! 3%nat =
                 Some (read_resolution (config_of_bytes sample_report)
                         generate_dpi_list (blank_resolution 3)))
    by (vm_compute; reflexivity).
  split; [repeat split; assumption |].
  exact (proj1 (proj2 (read_profile_metadata _ _ _ _ _ Hwf Hrc Hres))).
Defined.

Lemma read_resolution_dpi_values cfg res :
  Forall is_byte (dpi cfg) ->
  let decoded := read_resolution_dpi cfg res in
  100 <= dpi_x decoded <= 25600 /\ dpi_x decoded mod 100 = 0 /\
  100 <= dpi_y decoded <= 25600 /\ dpi_y decoded mod 100 = 0 /\
  (Z.testbit (config cfg) 7 = false -> dpi_y decoded = dpi_x decoded).
Proof.
  intros Hbytes decoded. subst decoded. unfold read_resolution_dpi.
  rewrite truthy_xy_independent.
  assert (Hval : forall k : nat,
            100 <= to_uint (sinowealth_raw_to_dpi (dpi cfg !!! k)) <= 25600 /\
            to_uint (sinowealth_raw_to_dpi (dpi cfg !!! k)) mod 100 = 0).
  { intros k. pose proof (is_byte_lookup_total (dpi cfg) k Hbytes) as Hk.
    rewrite raw_to_dpi_byte by assumption. unfold is_byte in Hk.
    split; [lia | apply Z.mod_mul; lia]. }
  destruct (Z.testbit (config cfg) 7); cbn [set_dpi_xy dpi_x dpi_y].
  - destruct (Hval (index res * 2)%nat), (Hval (index res * 2 + 1)%nat).
    repeat (split; [assumption |]). intros Hf. discriminate Hf.
  - destruct (Hval (index res)).
    repeat (split; [assumption |]). reflexivity.
Qed.

(** X9.  Every resolution of a successful read has either both DPIs 0 (its slot
    is disabled) or both DPIs multiples of 100 between 100 and 25600; when
    the XY-independent bit of the report is clear, the two are equal. *)
Theorem read_dpi_range device cfg0 profile (i : nat) res :
  wf_profile profile ->
  read_rc (sinowealth_read_profile device cfg0 profile) = 0 ->
  Forall is_byte (dpi (read_config (sinowealth_read_profile device cfg0 profile))) ->
  resolutions (read_profile (sinowealth_read_profile device cfg0 profile)) !! i
    = Some res ->
  ((dpi_x res = 0 /\ dpi_y res = 0) \/
   (100 <= dpi_x res <= 25600 /\ dpi_x res mod 100 = 0 /\
    100 <= dpi_y res <= 25600 /\ dpi_y res mod 100 = 0)) /\
  (Z.testbit (config (read_config (sinowealth_read_profile device cfg0 profile))) 7
     = false -> dpi_y res = dpi_x res).
Proof.
  intros Hwf Hrc Hbytes Hres.
  destruct (read_resolution_lookup device cfg0 profile i res Hwf Hrc Hres)
    as (res0 & _ & Hidx & Hlt & ->).
  set (cfg := read_config _) in *.
  destruct (read_resolution_dpi_xy cfg generate_dpi_list res0) as [-> ->].
  rewrite read_resolution_disabled_bit by (rewrite read_resolution_dpi_index; lia).
  destruct (read_resolution_dpi_values cfg res0 Hbytes) as (Hx & Hxm & Hy & Hym & Heq).
  destruct (Z.testbit (dpi_enabled cfg) _); cbn [set_dpi_xy dpi_x dpi_y].
  - split; [left; split; reflexivity | reflexivity].
  - split; [right; auto | exact Heq].
Qed.

Lemma read_dpi_range_witness :
  (wf_profile blank_profile /\
   read_rc (sample_read sample_report) = 0 /\
   Forall is_byte (dpi (read_config (sample_read sample_report))) /\
   resolutions (read_profile (sample_read sample_report)) !! 1%nat =
     Some (read_resolution (config_of_bytes sample_report) generate_dpi_list
             (blank_resolution 1)) /\
   Z.testbit (config (read_config (sample_read sample_report))) 7 = false) /\
  dpi_y (read_resolution (config_of_bytes sample_report) generate_dpi_list
           (blank_resolution 1)) =
  dpi_x (read_resolution (config_of_bytes sample_report) generate_dpi_list
           (blank_resolution 1)).
Proof.
  assert (Hwf : wf_profile blank_profile) by (repeat split; reflexivity).
  assert (Hrc : read_rc (sample_read sample_report) = 0) by (vm_compute; reflexivity).
  assert (Hbytes : Forall is_byte (dpi (read_config (sample_read sample_report)))).
  { vm_compute. repeat constructor; discriminate. }
  assert (Hres : resolutions (read_profile (sample_read sample_report)) !! 1%nat =
                 Some (read_resolution (config_of_bytes sample_report)
                         generate_dpi_list (blank_resolution 1)))
    by (vm_compute; reflexivity).
  assert (Hxy : Z.testbit (config (read_config (sample_read sample_report))) 7 = false)
    by (vm_compute; reflexivity).
  split; [repeat split; assumption |].
  exact (proj2 (read_dpi_range _ _ _ _ _ Hwf Hrc Hbytes Hres) Hxy).
Defined.

Lemma read_resolution_is_active cfg dpis res :
  is_active (read_resolution cfg dpis res) =
  (Z.of_nat (index res) =? to_uint (active_dpi cfg - 1)).
Proof.
  unfold read_resolution, read_resolution_flags.
  cbn [ratbag_resolution_set_cap ratbag_resolution_set_dpi_list set_is_default
       set_is_active is_active].
  now rewrite read_resolution_disabled_index, read_resolution_dpi_index.
Qed.

(** X10.  After a successful read at most one resolution is active: two active
    resolutions are in the same place.  None is active when the wire field
    [active_dpi] is 0 or larger than 6, and for a value [a] from 1 to 6 the
    resolution in place [a - 1] is. *)
Theorem read_one_active device cfg0 profile :
  wf_profile profile ->
  read_rc (sinowealth_read_profile device cfg0 profile) = 0 ->
  let result := sinowealth_read_profile device cfg0 profile in
  (forall (i j : nat) res_i res_j,
     resolutions (read_profile result) !! i = Some res_i ->
     resolutions (read_profile result) !! j = Some res_j ->
     is_active res_i = true -> is_active res_j = true -> i = j) /\
  (active_dpi (read_config result) = 0 \/ 6 < active_dpi (read_config result) ->
   forall (i : nat) res,
     resolutions (read_profile result) !! i = Some res -> is_active res = false) /\
  (1 <= active_dpi (read_config result) <= 6 ->
   exists res,
     resolutions (read_profile result)
       !! Z.to_nat (active_dpi (read_config result) - 1) = Some res /\
     is_active res = true).
Proof.
  intros Hwf Hrc result. subst result.
  destruct (read_profile_success device cfg0 profile Hrc) as [Hp [data Hcfg]].
  set (cfg := read_config _) in *.
  pose proof (config_of_bytes_active_dpi data) as Hrange. rewrite <- Hcfg in Hrange.
  assert (Hact : forall (i : nat) res,
            resolutions (read_profile (sinowealth_read_profile device cfg0 profile)) !! i
              = Some res ->
            (i < 6)%nat /\ is_active res = (Z.of_nat i =? to_uint (active_dpi cfg - 1))).
  { intros i res Hres.
    destruct (read_resolution_lookup device cfg0 profile i res Hwf Hrc Hres)
      as (res0 & _ & Hidx & Hlt & ->).
    fold cfg. rewrite read_resolution_is_active, Hidx. auto. }
  split; [| split].
  - intros i j res_i res_j Hi Hj Hai Haj.
    destruct (Hact i res_i Hi) as [_ Ei]. destruct (Hact j res_j Hj) as [_ Ej].
    rewrite Ei in Hai. rewrite Ej in Haj.
    apply Z.eqb_eq in Hai, Haj. lia.
  - intros Hout i res Hres. destruct (Hact i res Hres) as [Hlt ->].
    apply Z.eqb_neq. unfold to_uint.
    destruct Hout as [Hzero | Hbig].
    + rewrite Hzero. change ((0 - 1) mod 2 ^ 32) with 4294967295. lia.
    + rewrite Z.mod_small by lia. lia.
  - intros Hin.
    destruct Hwf as (Hlen & _ & _). unfold SINOWEALTH_NUM_DPIS in Hlen.
    destruct (lookup_lt_is_Some_2
                (resolutions (read_profile (sinowealth_read_profile device cfg0 profile)))
                (Z.to_nat (active_dpi cfg - 1))) as [res Hres].
    { rewrite Hp, read_resolutions_eq, length_map. lia. }
    exists res. split; [assumption |].
    destruct (Hact _ res Hres) as [_ ->].
    apply Z.eqb_eq. unfold to_uint. rewrite Z.mod_small by lia. lia.
Qed.

Lemma read_one_active_witness :
  (wf_profile blank_profile /\ read_rc (sample_read sample_report) = 0 /\
   1 <= active_dpi (read_config (sample_read sample_report)) <= 6) /\
  exists res,
    resolutions (read_profile (sample_read sample_report))
      !! Z.to_nat (active_dpi (read_config (sample_read sample_report)) - 1)
      = Some res /\
    is_active res = true.
Proof.
  assert (Hwf : wf_profile blank_profile) by (repeat split; reflexivity).
  assert (Hrc : read_rc (sample_read sample_report) = 0) by (vm_compute; reflexivity).
  assert (Hin : 1 <= active_dpi (read_config (sample_read sample_report)) <= 6)
    by (vm_compute; split; discriminate).
  split; [repeat split; assumption || apply Hin |].
  exact (proj2 (proj2 (read_one_active _ _ _ Hwf Hrc)) Hin).
Defined.

(** ** Commit: the config byte *)

Lemma clear_xy_flag (c : Z) :
  to_uint8 (Z.land c (Z.lnot SINOWEALTH_XY_INDEPENDENT)) = Z.land c 0x7F.
Proof.
  apply Z.bits_inj'. intros n Hn.
  rewrite testbit_to_uint8, !Z.land_spec, Z.lnot_spec by assumption.
  change SINOWEALTH_XY_INDEPENDENT with (2 ^ 7). change 127 with (Z.ones 7).
  rewrite Z.pow2_bits_eqb, Z.testbit_ones_nonneg by lia.
  destruct (Z.testbit c n); cbn [andb]; [| apply andb_false_r].
  destruct (Z.ltb_spec n 7), (Z.ltb_spec n 8), (Z.eqb_spec 7 n); try lia; reflexivity.
Qed.

Lemma mask_cleared_flag (c : Z) :
  to_uint8 (Z.land (Z.land c 0x7F) SINOWEALTH_XY_INDEPENDENT) = 0.
Proof.
  rewrite <- Z.land_assoc.
  change (Z.land 127 SINOWEALTH_XY_INDEPENDENT) with 0.
  now rewrite Z.land_0_r.
Qed.

Lemma commit_xy_scan_config c rs :
  config (commit_xy_scan c rs) =
  if existsb xy_differ rs
  then to_uint8 (Z.land (config c) SINOWEALTH_XY_INDEPENDENT) else config c.
Proof.
  induction rs as [| res rs IH]; cbn [commit_xy_scan existsb]; [reflexivity |].
  destruct (xy_differ res); cbn [orb]; [reflexivity | assumption].
Qed.

Lemma commit_config_config_eq cfg profile :
  config (commit_config cfg profile) =
  if existsb xy_differ (resolutions profile) then 0 else Z.land (config cfg) 0x7F.
Proof.
  rewrite commit_config_config. unfold commit_xy_independent.
  rewrite commit_xy_scan_config. cbn [set_config config].
  rewrite clear_xy_flag, mask_cleared_flag. reflexivity.
Qed.


(** ** Commit: the fields it leaves alone *)

Lemma commit_xy_scan_keeps {C} (proj : sinowealth_config_report -> C) c rs :
  (forall c v, proj (set_config v c) = proj c) ->
  proj (commit_xy_scan c rs) = proj c.
Proof.
  intros Hproj. induction rs as [| res rs IH]; cbn [commit_xy_scan]; [reflexivity |].
  destruct (xy_differ res); [apply Hproj | assumption].
Qed.

Lemma commit_resolution_keeps {C} (proj : sinowealth_config_report -> C) c res :
  (forall c v, proj (set_dpi v c) = proj c) ->
  (forall c v, proj (set_dpi_enabled v c) = proj c) ->
  proj (commit_resolution c res) = proj c.
Proof.
  intros Hdpi Hen. unfold commit_resolution.
  destruct (truthy (Z.land (config c) _)); destruct (slot_enabled res);
    now rewrite ?Hen, ?Hdpi.
Qed.

Lemma commit_body_led_keeps {C} (proj : sinowealth_config_report -> C) c profile :
  (forall c v, proj (set_rgb_effect v c) = proj c) ->
  (forall c v, proj (set_single_color v c) = proj c) ->
  (forall c v, proj (set_breathing1_color v c) = proj c) ->
  proj (commit_body_led c profile) = proj c.
Proof.
  intros He Hs Hb. unfold commit_body_led, commit_body_effect.
  destruct (ratbag_profile_get_led profile 0) as [led |]; [| reflexivity].
  destruct (mode led); now rewrite ?Hs, ?Hb, ?He.
Qed.

Lemma commit_config_keeps {C} (proj : sinowealth_config_report -> C) cfg profile :
  (forall c v, proj (set_config v c) = proj c) ->
  (forall c v, proj (set_dpi v c) = proj c) ->
  (forall c v, proj (set_dpi_enabled v c) = proj c) ->
  (forall c v, proj (set_dpi_color v c) = proj c) ->
  (forall c v, proj (set_rgb_effect v c) = proj c) ->
  (forall c v, proj (set_single_color v c) = proj c) ->
  (forall c v, proj (set_breathing1_color v c) = proj c) ->
  (forall c v, proj (set_config_write v c) = proj c) ->
  proj (commit_config cfg profile) = proj cfg.
Proof.
  intros Hc Hd He Hcol Heff Hs Hb Hw. unfold commit_config.
  rewrite Hw, (commit_dpi_leds_keeps proj) by assumption.
  rewrite (commit_body_led_keeps proj) by assumption.
  unfold commit_resolutions.
  rewrite (foldl_preserves commit_resolution proj)
    by (intros; now apply commit_resolution_keeps).
  rewrite He. unfold commit_xy_independent.
  now rewrite (commit_xy_scan_keeps proj), Hc.
Qed.

Ltac kept_field := apply commit_config_keeps; reflexivity.

(** X12.  Commit changes only what it derives from the profile.  The identifiers
    of the report, the count of DPI slots, the parameters of the effects and
    the lift-off distance stay as they were read, and so does [active_dpi]:
    the active resolution of the profile is not written to the device. *)
Theorem commit_keeps_other_fields device cfg profile :
  let cfg' := commit_drv_config (sinowealth_commit device cfg profile) in
  report_id cfg' = report_id cfg /\ command_id cfg' = command_id cfg /\
  unk1 cfg' = unk1 cfg /\ unk2 cfg' = unk2 cfg /\
  dpi_count cfg' = dpi_count cfg /\ active_dpi cfg' = active_dpi cfg /\
  glorious_mode cfg' = glorious_mode cfg /\
  glorious_direction cfg' = glorious_direction cfg /\
  breathing_mode cfg' = breathing_mode cfg /\
  breathing_colorcount cfg' = breathing_colorcount cfg /\
  breathing_colors cfg' = breathing_colors cfg /\
  tail_mode cfg' = tail_mode cfg /\ rave_mode cfg' = rave_mode cfg /\
  rave_colors cfg' = rave_colors cfg /\ wave_mode cfg' = wave_mode cfg /\
  breathing1_mode cfg' = breathing1_mode cfg /\
  unk4 cfg' = unk4 cfg /\ lift_off_distance cfg' = lift_off_distance cfg.
Proof.
  cbv zeta. rewrite commit_drv_config_eq. repeat split; kept_field.
Qed.

(** ** Commit: the arrays *)

Lemma commit_resolutions_dpi_fold rs c :
  truthy (Z.land (config c) SINOWEALTH_XY_INDEPENDENT) = false ->
  dpi (foldl commit_resolution c rs) =
  foldl (fun d res => <[index res := raw_dpi_byte (dpi_x res)]> d) (dpi c) rs.
Proof.
  revert c. induction rs as [| res rs IH]; intros c Hmode; cbn [foldl]; [reflexivity |].
  rewrite IH by now rewrite commit_resolution_config.
  f_equal. unfold commit_resolution. rewrite Hmode.
  now destruct (slot_enabled res).
Qed.

Lemma commit_resolutions_mask_fold rs c :
  dpi_enabled (foldl commit_resolution c rs) =
  foldl (fun m res =>
           if slot_enabled res
           then to_uint8 (Z.land m (Z.lnot (to_int (Z.shiftl 1 (Z.of_nat (index res))))))
           else m) (dpi_enabled c) rs.
Proof.
  revert c. induction rs as [| res rs IH]; intros c; cbn [foldl]; [reflexivity |].
  rewrite IH. f_equal. unfold commit_resolution.
  destruct (truthy (Z.land (config c) _)); now destruct (slot_enabled res).
Qed.

Lemma commit_config_dpi_eq cfg profile :
  wf_config cfg -> wf_profile profile ->
  dpi (commit_config cfg profile) =
  map (fun res => raw_dpi_byte (dpi_x res)) (resolutions profile) ++ drop 6 (dpi cfg).
Proof.
  intros (_ & Hdpi & _) (Hlen & Hwf & _).
  rewrite commit_config_dpi. unfold commit_resolutions.
  rewrite commit_resolutions_dpi_fold
    by (cbn [set_dpi_enabled config]; apply commit_config_shared_mode).
  cbn [set_dpi_enabled dpi]. rewrite commit_xy_independent_dpi.
  unfold wf_resolutions in Hwf. unfold SINOWEALTH_NUM_DPIS in Hlen.
  destruct (resolutions profile) as [| r0 [| r1 [| r2 [| r3 [| r4 [| r5 [| ? ?]]]]]]];
    try discriminate Hlen.
  cbn [map length seq] in Hwf.
  injection Hwf as H0 H1 H2 H3 H4 H5.
  cbn [foldl]. rewrite H0, H1, H2, H3, H4, H5.
  destruct (dpi cfg) as [| d0 d]; [discriminate Hdpi |].
  do 15 (destruct d as [| ? d]; [discriminate Hdpi |]).
  destruct d; [| discriminate Hdpi].
  reflexivity.
Qed.

Lemma commit_config_dpi_color_eq cfg profile :
  wf_config cfg -> wf_profile profile ->
  dpi_color (commit_config cfg profile) =
  map (fun led => sinowealth_color_to_raw (color led)) (take 6 (drop 1 (leds profile)))
  ++ drop 6 (dpi_color cfg).
Proof.
  intros (_ & _ & Hcol & _) (_ & _ & Hleds).
  unfold commit_config. cbn [set_config_write dpi_color].
  assert (Hstart : dpi_color (commit_body_led
                                (commit_resolutions (commit_xy_independent cfg profile)
                                   profile) profile) = dpi_color cfg).
  { rewrite (commit_body_led_keeps dpi_color) by reflexivity.
    unfold commit_resolutions.
    rewrite (foldl_preserves commit_resolution dpi_color)
      by (intros; now apply commit_resolution_keeps).
    cbn [set_dpi_enabled dpi_color]. unfold commit_xy_independent.
    now rewrite (commit_xy_scan_keeps dpi_color). }
  revert Hstart. generalize (commit_body_led
                               (commit_resolutions (commit_xy_independent cfg profile)
                                  profile) profile).
  intros c Hstart. unfold commit_dpi_leds, commit_dpi_led, ratbag_profile_get_led.
  unfold SINOWEALTH_NUM_DPIS in *.
  destruct (leds profile) as [| l0 [| l1 [| l2 [| l3 [| l4 [| l5 [| l6 [| ? ?]]]]]]]];
    try discriminate Hleds.
  cbn -[sinowealth_color_to_raw]. rewrite Hstart.
  destruct (dpi_color cfg) as [| c0 cs]; [discriminate Hcol |].
  do 7 (destruct cs as [| ? cs]; [discriminate Hcol |]).
  destruct cs; [| discriminate Hcol].
  reflexivity.
Qed.

(** X13.  The raw DPI array after commit: the first six cells hold the encoded
    [dpi_x] of the six resolutions, in order, and the other ten cells are
    untouched.  [dpi_y] is stored nowhere. *)
Theorem commit_dpi_array device cfg profile :
  wf_config cfg -> wf_profile profile ->
  dpi (commit_drv_config (sinowealth_commit device cfg profile)) =
  map (fun res => raw_dpi_byte (dpi_x res)) (resolutions profile) ++ drop 6 (dpi cfg).
Proof.
  intros Hcfg Hwf. rewrite commit_drv_config_eq. now apply commit_config_dpi_eq.
Qed.

Lemma commit_dpi_array_witness :
  (wf_config zero_config /\ wf_profile (profile_with_dpis [(800, 800); (400, 800)])) /\
  dpi (commit_drv_config
         (sinowealth_commit (device_writing 520) zero_config
            (profile_with_dpis [(800, 800); (400, 800)]))) =
  [7; 3; 255; 255; 255; 255; 0; 0; 0; 0; 0; 0; 0; 0; 0; 0].
Proof.
  assert (Hcfg : wf_config zero_config) by (repeat split; reflexivity).
  assert (Hwf : wf_profile (profile_with_dpis [(800, 800); (400, 800)]))
    by (repeat split; reflexivity).
  split; [split; assumption |].
  etransitivity; [exact (commit_dpi_array (device_writing 520) _ _ Hcfg Hwf) |].
  reflexivity.
Defined.

(** X14.  The colors of the DPI indicators after commit: the first six cells of
    [dpi_color] hold the red, green and blue of LED 1 to LED 6, each channel
    modulo 256, and the last two cells are untouched. *)
Theorem commit_dpi_colors device cfg profile :
  wf_config cfg -> wf_profile profile ->
  dpi_color (commit_drv_config (sinowealth_commit device cfg profile)) =
  map (fun led => mkRGB8 (red (color led) mod 256) (green (color led) mod 256)
                         (blue (color led) mod 256))
      (take 6 (drop 1 (leds profile)))
  ++ drop 6 (dpi_color cfg).
Proof.
  intros Hcfg Hwf. rewrite commit_drv_config_eq.
  rewrite commit_config_dpi_color_eq by assumption. reflexivity.
Qed.

Lemma commit_dpi_colors_witness :
  (wf_config (config_of_bytes sample_report_colors) /\
   wf_profile (profile_with_leds sample_leds)) /\
  dpi_color (commit_drv_config
               (sinowealth_commit (device_writing 520)
                  (config_of_bytes sample_report_colors)
                  (profile_with_leds sample_leds))) =
  [mkRGB8 255 128 0; mkRGB8 1 2 3; mkRGB8 0 0 0; mkRGB8 0 0 0; mkRGB8 0 0 0;
   mkRGB8 0 0 0; mkRGB8 9 0 0; mkRGB8 0 0 0].
Proof.
  assert (Hcfg : wf_config (config_of_bytes sample_report_colors))
    by (repeat split; reflexivity).
  assert (Hwf : wf_profile (profile_with_leds sample_leds))
    by (repeat split; reflexivity).
  split; [split; assumption |].
  etransitivity; [exact (commit_dpi_colors (device_writing 520) _ _ Hcfg Hwf) |].
  vm_compute. reflexivity.
Defined.

(** ** Commit twice *)

Lemma config_ext (c1 c2 : sinowealth_config_report) :
  report_id c1 = report_id c2 -> command_id c1 = command_id c2 ->
  unk1 c1 = unk1 c2 -> config_write c1 = config_write c2 ->
  unk2 c1 = unk2 c2 -> config c1 = config c2 ->
  dpi_count c1 = dpi_count c2 -> active_dpi c1 = active_dpi c2 ->
  dpi_enabled c1 = dpi_enabled c2 -> dpi c1 = dpi c2 ->
  dpi_color c1 = dpi_color c2 -> rgb_effect c1 = rgb_effect c2 ->
  glorious_mode c1 = glorious_mode c2 ->
  glorious_direction c1 = glorious_direction c2 ->
  single_color c1 = single_color c2 -> breathing_mode c1 = breathing_mode c2 ->
  breathing_colorcount c1 = breathing_colorcount c2 ->
  breathing_colors c1 = breathing_colors c2 ->
  tail_mode c1 = tail_mode c2 -> rave_mode c1 = rave_mode c2 ->
  rave_colors c1 = rave_colors c2 -> wave_mode c1 = wave_mode c2 ->
  breathing1_mode c1 = breathing1_mode c2 ->
  breathing1_color c1 = breathing1_color c2 ->
  unk4 c1 = unk4 c2 -> lift_off_distance c1 = lift_off_distance c2 ->
  c1 = c2.
Proof.
  destruct c1, c2. cbn. intros. subst. reflexivity.
Qed.

(** The three fields written for the body LED, from its mode and color. *)
Lemma commit_config_body_fields cfg profile :
  rgb_effect (commit_config cfg profile) =
    match leds profile !! 0%nat with
    | Some led =>
        match mode led with
        | RATBAG_LED_OFF => RGB_OFF
        | RATBAG_LED_ON => RGB_SINGLE
        | RATBAG_LED_CYCLE => RGB_GLORIOUS
        | RATBAG_LED_BREATHING => RGB_BREATHING1
        end
    | None => rgb_effect cfg
    end /\
  single_color (commit_config cfg profile) =
    match leds profile !! 0%nat with
    | Some led =>
        match mode led with
        | RATBAG_LED_ON => sinowealth_color_to_raw (color led)
        | _ => single_color cfg
        end
    | None => single_color cfg
    end /\
  breathing1_color (commit_config cfg profile) =
    match leds profile !! 0%nat with
    | Some led =>
        match mode led with
        | RATBAG_LED_BREATHING => sinowealth_color_to_raw (color led)
        | _ => breathing1_color cfg
        end
    | None => breathing1_color cfg
    end.
Proof.
  rewrite commit_config_rgb_effect, commit_config_single_color,
    commit_config_breathing1_color.
  set (stage := commit_resolutions (commit_xy_independent cfg profile) profile).
  assert (Hstage : rgb_effect stage = rgb_effect cfg /\
                   single_color stage = single_color cfg /\
                   breathing1_color stage = breathing1_color cfg).
  { subst stage. unfold commit_resolutions, commit_xy_independent.
    rewrite (foldl_preserves commit_resolution rgb_effect),
      (foldl_preserves commit_resolution single_color),
      (foldl_preserves commit_resolution breathing1_color)
      by (intros; now apply commit_resolution_keeps).
    cbn [set_dpi_enabled rgb_effect single_color breathing1_color].
    rewrite (commit_xy_scan_keeps rgb_effect), (commit_xy_scan_keeps single_color),
      (commit_xy_scan_keeps breathing1_color) by reflexivity.
    repeat split. }
  destruct Hstage as (He & Hs & Hb).
  unfold commit_body_led, commit_body_effect, ratbag_profile_get_led.
  destruct (leds profile !! 0%nat) as [led |]; [destruct (mode led) |];
    cbn [set_rgb_effect set_single_color set_breathing1_color rgb_effect
         single_color breathing1_color];
    rewrite ?He, ?Hs, ?Hb; repeat split.
Qed.

Lemma commit_config_idempotent cfg profile :
  wf_config cfg -> wf_profile profile ->
  commit_config (commit_config cfg profile) profile = commit_config cfg profile.
Proof.
  intros Hcfg Hwf.
  pose proof (commit_config_wf cfg profile Hcfg) as Hcfg'.
  pose proof (commit_config_body_fields cfg profile) as Hbody.
  pose proof (commit_config_body_fields (commit_config cfg profile) profile) as Hbody'.
  assert (Hfields :
            rgb_effect (commit_config (commit_config cfg profile) profile) =
              rgb_effect (commit_config cfg profile) /\
            single_color (commit_config (commit_config cfg profile) profile) =
              single_color (commit_config cfg profile) /\
            breathing1_color (commit_config (commit_config cfg profile) profile) =
              breathing1_color (commit_config cfg profile)).
  { destruct Hbody as (H1 & H2 & H3). destruct Hbody' as (H1' & H2' & H3').
    rewrite H1', H2', H3', H1, H2, H3.
    destruct (leds profile !! 0%nat) as [led |]; [destruct (mode led) |];
      repeat split. }
  destruct Hfields as (He & Hs & Hb).
  apply config_ext; try kept_field; try assumption.
  - reflexivity.
  - rewrite !commit_config_config_eq.
    destruct (existsb xy_differ (resolutions profile)); [reflexivity |].
    now rewrite <- Z.land_assoc.
  - rewrite !commit_config_dpi_enabled. unfold commit_resolutions.
    now rewrite !commit_resolutions_mask_fold.
  - rewrite (commit_config_dpi_eq (commit_config cfg profile)) by assumption.
    rewrite (commit_config_dpi_eq cfg) by assumption.
    rewrite drop_app_length'; [reflexivity |].
    destruct Hwf as (Hlen & _). now rewrite length_map.
  - rewrite (commit_config_dpi_color_eq (commit_config cfg profile)) by assumption.
    rewrite (commit_config_dpi_color_eq cfg) by assumption.
    rewrite drop_app_length'; [reflexivity |].
    destruct Hwf as (_ & _ & Hleds). unfold SINOWEALTH_NUM_DPIS in Hleds.
    rewrite length_map, length_take, length_drop, Hleds. reflexivity.
Qed.

(** X15.  Committing the same profile twice changes nothing the second time: the
    configuration kept in the driver data and the 520 bytes sent are the
    same as after the first commit. *)
Theorem commit_idempotent device1 device2 cfg profile :
  wf_config cfg -> wf_profile profile ->
  let first := sinowealth_commit device1 cfg profile in
  let second := sinowealth_commit device2 (commit_drv_config first) profile in
  commit_drv_config second = commit_drv_config first /\
  commit_sent second = commit_sent first.
Proof.
  intros Hcfg Hwf first second. subst first second.
  rewrite !commit_sent_eq, !commit_drv_config_eq.
  now rewrite commit_config_idempotent.
Qed.

Lemma commit_idempotent_witness :
  (wf_config zero_config /\ wf_profile (profile_with_dpis [(800, 800); (400, 800)])) /\
  commit_sent
    (sinowealth_commit (device_writing 520)
       (commit_drv_config
          (sinowealth_commit (device_writing 0) zero_config
             (profile_with_dpis [(800, 800); (400, 800)])))
       (profile_with_dpis [(800, 800); (400, 800)])) =
  commit_sent
    (sinowealth_commit (device_writing 0) zero_config
       (profile_with_dpis [(800, 800); (400, 800)])).
Proof.
  assert (Hcfg : wf_config zero_config) by (repeat split; reflexivity).
  assert (Hwf : wf_profile (profile_with_dpis [(800, 800); (400, 800)]))
    by (repeat split; reflexivity).
  split; [split; assumption |].
  exact (proj2 (commit_idempotent (device_writing 0) (device_writing 520) _ _ Hcfg Hwf)).
Defined.

(** ** Commit, then read *)

Lemma commit_data_eq c :
  wf_config c -> commit_data c = config_bytes c ++ replicate 423 0.
Proof.
  intros Hwf. unfold commit_data, memcpy, sizeof_config.
  change (Z.to_nat 97) with 97%nat.
  rewrite take_ge by (rewrite length_config_bytes by assumption; lia).
  reflexivity.
Qed.

Lemma commit_data_decodes cfg profile :
  wf_config cfg -> 0 <= dpi_count cfg < 16 -> 0 <= active_dpi cfg < 16 ->
  config_of_bytes (commit_data (commit_config cfg profile)) = commit_config cfg profile.
Proof.
  intros Hcfg Hcount Hactive.
  pose proof (commit_config_wf cfg profile Hcfg) as Hwf.
  rewrite commit_data_eq by assumption.
  apply config_of_bytes_config_bytes; [assumption | |].
  - now rewrite (commit_config_keeps dpi_count) by reflexivity.
  - now rewrite (commit_config_keeps active_dpi) by reflexivity.
Qed.

(** X16.  The report that commit sends decodes, with the [memcpy] of the read,
    to exactly the configuration that commit leaves in the driver data. *)
Theorem commit_report_decodes_back device cfg profile :
  wf_config cfg -> 0 <= dpi_count cfg < 16 -> 0 <= active_dpi cfg < 16 ->
  config_of_bytes (commit_sent (sinowealth_commit device cfg profile)) =
  commit_drv_config (sinowealth_commit device cfg profile).
Proof.
  intros Hcfg Hcount Hactive.
  rewrite commit_sent_eq, commit_drv_config_eq.
  now apply commit_data_decodes.
Qed.

Lemma commit_report_decodes_back_witness :
  (wf_config (config_of_bytes sample_report) /\
   0 <= dpi_count (config_of_bytes sample_report) < 16 /\
   0 <= active_dpi (config_of_bytes sample_report) < 16) /\
  config_of_bytes
    (commit_sent (sinowealth_commit (device_writing 520)
                    (config_of_bytes sample_report) blank_profile)) =
  commit_drv_config (sinowealth_commit (device_writing 520)
                       (config_of_bytes sample_report) blank_profile).
Proof.
  assert (Hcfg : wf_config (config_of_bytes sample_report))
    by (repeat split; reflexivity).
  assert (Hcount : 0 <= dpi_count (config_of_bytes sample_report) < 16)
    by (vm_compute; split; discriminate || reflexivity).
  assert (Hactive : 0 <= active_dpi (config_of_bytes sample_report) < 16)
    by (vm_compute; split; discriminate || reflexivity).
  split; [repeat split; assumption || apply Hcount || apply Hactive |].
  exact (commit_report_decodes_back (device_writing 520) _ blank_profile
           Hcfg Hcount Hactive).
Defined.

(** A read that succeeds on the bytes [data] stores their decoding. *)
Lemma read_back_config device cfg0 profile data :
  snd (ratbag_hidraw_get_feature_report device SINOWEALTH_REPORT_ID_CONFIG
         (zalloc SINOWEALTH_CONFIG_SIZE)) = data ->
  read_rc (sinowealth_read_profile device cfg0 profile) = 0 ->
  read_config (sinowealth_read_profile device cfg0 profile) = config_of_bytes data.
Proof.
  intros <- Hrc. now apply read_success_config.
Qed.

Lemma commit_config_flag_clear cfg profile :
  Z.testbit (config (commit_config cfg profile)) 7 = false.
Proof. rewrite commit_config_config. apply commit_xy_independent_clear. Qed.

(** X17.  Commit a profile, then read the report sent back into a profile.  A
    resolution with a zero DPI comes back as (0, 0).  A resolution with both
    DPIs nonzero and [dpi_x] from 100 to 25699 comes back with [dpi_x]
    rounded down to a multiple of 100 on both axes: [dpi_x] is kept when it
    is a multiple of 100, and [dpi_y] is replaced by it. *)
Theorem commit_then_read_dpi device1 device2 cfg cfg2 profile profile2 (i : nat) res res' :
  wf_config cfg -> 0 <= dpi_count cfg < 16 -> 0 <= active_dpi cfg < 16 ->
  wf_profile profile -> wf_profile profile2 ->
  snd (ratbag_hidraw_get_feature_report device2 SINOWEALTH_REPORT_ID_CONFIG
         (zalloc SINOWEALTH_CONFIG_SIZE)) =
    commit_sent (sinowealth_commit device1 cfg profile) ->
  read_rc (sinowealth_read_profile device2 cfg2 profile2) = 0 ->
  resolutions profile !! i = Some res ->
  resolutions (read_profile (sinowealth_read_profile device2 cfg2 profile2)) !! i
    = Some res' ->
  (dpi_x res = 0 \/ dpi_y res = 0 -> dpi_x res' = 0 /\ dpi_y res' = 0) /\
  (dpi_x res <> 0 -> dpi_y res <> 0 -> 100 <= dpi_x res < 25700 ->
   dpi_x res' = dpi_x res - dpi_x res mod 100 /\ dpi_y res' = dpi_x res') /\
  (dpi_x res <> 0 -> dpi_y res <> 0 -> 100 <= dpi_x res <= 25600 ->
   dpi_x res mod 100 = 0 -> dpi_x res' = dpi_x res /\ dpi_y res' = dpi_x res).
Proof.
  intros Hcfg Hcount Hactive Hwf Hwf2 Hdata Hrc Hres Hres'.
  pose proof (read_back_config device2 cfg2 profile2 _ Hdata Hrc) as Hback.
  rewrite commit_sent_eq, commit_data_decodes in Hback by assumption.
  destruct (read_resolution_lookup device2 cfg2 profile2 i res' Hwf2 Hrc Hres')
    as (res0 & _ & Hidx & Hlt & ->).
  rewrite Hback.
  destruct (commit_config_slot cfg profile i res Hcfg Hwf Hres) as [Hbyte Hbit].
  destruct (read_resolution_dpi_xy (commit_config cfg profile) generate_dpi_list res0)
    as [-> ->].
  rewrite read_resolution_disabled_bit by (rewrite read_resolution_dpi_index; lia).
  rewrite read_resolution_dpi_index, Hidx, Hbit.
  assert (Henabled : dpi_x res <> 0 -> dpi_y res <> 0 -> 100 <= dpi_x res < 25700 ->
            dpi_x (if negb (slot_enabled res)
                   then set_dpi_xy 0 0 (read_resolution_dpi (commit_config cfg profile) res0)
                   else read_resolution_dpi (commit_config cfg profile) res0)
              = dpi_x res - dpi_x res mod 100 /\
            dpi_y (if negb (slot_enabled res)
                   then set_dpi_xy 0 0 (read_resolution_dpi (commit_config cfg profile) res0)
                   else read_resolution_dpi (commit_config cfg profile) res0)
              = dpi_x res - dpi_x res mod 100).
  { intros Hx Hy Hrange.
    rewrite (proj2 (slot_enabled_iff res)) by auto. cbn [negb].
    unfold read_resolution_dpi.
    rewrite truthy_xy_independent, commit_config_flag_clear, Hidx.
    cbn [set_dpi_xy dpi_x dpi_y].
    rewrite (list_lookup_total_correct _ _ _ Hbyte).
    destruct (raw_dpi_byte_floor (dpi_x res) Hrange) as [-> Hb].
    rewrite raw_to_dpi_byte by assumption.
    pose proof (Z.div_mod (dpi_x res) 100 ltac:(lia)). split; lia. }
  split; [| split].
  - intros Hzero.
    assert (Hoff : slot_enabled res = false).
    { destruct (slot_enabled res) eqn:Hen; [| reflexivity].
      apply slot_enabled_iff in Hen. lia. }
    rewrite Hoff. split; reflexivity.
  - intros Hx Hy Hrange. destruct (Henabled Hx Hy Hrange) as [-> ->]. auto.
  - intros Hx Hy Hrange Hmod.
    destruct (Henabled Hx Hy ltac:(lia)) as [-> ->]. rewrite Hmod. split; lia.
Qed.

Lemma commit_then_read_dpi_witness :
  let sent :=
    commit_sent (sinowealth_commit (device_writing 520) (config_of_bytes sample_report)
                   (profile_with_dpis [(800, 800); (400, 850)])) in
  (wf_config (config_of_bytes sample_report) /\
   wf_profile (profile_with_dpis [(800, 800); (400, 850)]) /\
   wf_profile blank_profile /\
   read_rc (sample_read sent) = 0 /\
   resolutions (profile_with_dpis [(800, 800); (400, 850)]) !! 1%nat =
     Some (set_dpi_xy 400 850 (blank_resolution 1)) /\
   resolutions (read_profile (sample_read sent)) !! 1%nat =
     Some (read_resolution (config_of_bytes sent) generate_dpi_list (blank_resolution 1))) /\
  dpi_x (read_resolution (config_of_bytes sent) generate_dpi_list (blank_resolution 1))
    = 400 /\
  dpi_y (read_resolution (config_of_bytes sent) generate_dpi_list (blank_resolution 1))
    = 400.
Proof.
  intros sent.
  assert (Hcfg : wf_config (config_of_bytes sample_report))
    by (repeat split; reflexivity).
  assert (Hcount : 0 <= dpi_count (config_of_bytes sample_report) < 16)
    by (vm_compute; split; discriminate || reflexivity).
  assert (Hactive : 0 <= active_dpi (config_of_bytes sample_report) < 16)
    by (vm_compute; split; discriminate || reflexivity).
  assert (Hwf : wf_profile (profile_with_dpis [(800, 800); (400, 850)]))
    by (repeat split; reflexivity).
  assert (Hwf2 : wf_profile blank_profile) by (repeat split; reflexivity).
  assert (Hdata : snd (ratbag_hidraw_get_feature_report
                         (device_answering SINOWEALTH_CONFIG_SIZE sent)
                         SINOWEALTH_REPORT_ID_CONFIG (zalloc SINOWEALTH_CONFIG_SIZE))
                  = sent) by reflexivity.
  assert (Hrc : read_rc (sample_read sent) = 0) by (vm_compute; reflexivity).
  assert (Hres : resolutions (profile_with_dpis [(800, 800); (400, 850)]) !! 1%nat =
                 Some (set_dpi_xy 400 850 (blank_resolution 1))) by reflexivity.
  assert (Hres' : resolutions (read_profile (sample_read sent)) !! 1%nat =
                  Some (read_resolution (config_of_bytes sent) generate_dpi_list
                          (blank_resolution 1))) by (vm_compute; reflexivity).
  split; [repeat split; assumption |].
  destruct (commit_then_read_dpi (device_writing 520) _ _ zero_config _ _ 1%nat _ _
              Hcfg Hcount Hactive Hwf Hwf2 Hdata Hrc Hres Hres')
    as (_ & _ & Hexact).
  apply Hexact; cbn; lia || discriminate || reflexivity.
Defined.

(** X18.  Commit a profile, then read the report sent back into a profile.  The
    body LED comes back in the mode it had, whichever of the four it was;
    in the modes on and breathing its color comes back with the red, green
    and blue it had, each modulo 256.  Each DPI indicator LED comes back on,
    with its red, green and blue modulo 256. *)
Theorem commit_then_read_leds device1 device2 cfg cfg2 profile profile2 :
  wf_config cfg -> 0 <= dpi_count cfg < 16 -> 0 <= active_dpi cfg < 16 ->
  wf_profile profile -> wf_profile profile2 ->
  snd (ratbag_hidraw_get_feature_report device2 SINOWEALTH_REPORT_ID_CONFIG
         (zalloc SINOWEALTH_CONFIG_SIZE)) =
    commit_sent (sinowealth_commit device1 cfg profile) ->
  read_rc (sinowealth_read_profile device2 cfg2 profile2) = 0 ->
  let back := read_profile (sinowealth_read_profile device2 cfg2 profile2) in
  (exists led led',
     leds profile !! 0%nat = Some led /\ leds back !! 0%nat = Some led' /\
     mode led' = mode led /\
     (mode led = RATBAG_LED_ON \/ mode led = RATBAG_LED_BREATHING ->
      color led' =
        mkColor (red (color led) mod 256) (green (color led) mod 256)
                (blue (color led) mod 256))) /\
  (forall i : nat, (1 <= i <= 6)%nat ->
     exists led led',
       leds profile !! i = Some led /\ leds back !! i = Some led' /\
       mode led' = RATBAG_LED_ON /\
       color led' =
         mkColor (red (color led) mod 256) (green (color led) mod 256)
                 (blue (color led) mod 256)).
Proof.
  intros Hcfg Hcount Hactive Hwf Hwf2 Hdata Hrc back. subst back.
  pose proof (read_back_config device2 cfg2 profile2 _ Hdata Hrc) as Hback.
  rewrite commit_sent_eq, commit_data_decodes in Hback by assumption.
  destruct (read_profile_success device2 cfg2 profile2 Hrc) as [-> _].
  rewrite Hback.
  pose proof Hwf as (_ & _ & Hleds). pose proof Hwf2 as (_ & _ & Hleds2).
  unfold SINOWEALTH_NUM_DPIS in Hleds, Hleds2.
  split.
  - destruct (lookup_lt_is_Some_2 (leds profile) 0) as [led Hled]; [lia |].
    destruct (lookup_lt_is_Some_2 (leds profile2) 0) as [led2 Hled2]; [lia |].
    rewrite read_body_led_eq, Hled2. cbn [fmap option_fmap option_map].
    exists led. eexists. split; [assumption |]. split; [reflexivity |].
    destruct (commit_config_body_fields cfg profile) as (He & Hs & Hb).
    rewrite Hled in He, Hs, Hb.
    unfold read_body_led, read_body_effect. cbv zeta. rewrite He.
    destruct (mode led);
      cbn -[commit_config sinowealth_raw_to_color sinowealth_color_to_raw];
      rewrite ?Hs, ?Hb; split; try reflexivity;
      intros [Hm | Hm]; discriminate Hm || reflexivity.
  - intros i Hi.
    destruct (lookup_lt_is_Some_2 (leds profile) i) as [led Hled]; [lia |].
    destruct (lookup_lt_is_Some_2 (leds profile2) i) as [led2 Hled2]; [lia |].
    rewrite read_dpi_led_eq, Hled2 by assumption. cbn [fmap option_fmap option_map].
    exists led. eexists. split; [assumption |]. split; [reflexivity |].
    unfold read_dpi_led. cbn [ratbag_led_set_mode_capability set_color set_mode
                              set_colordepth set_led_type mode color].
    split; [reflexivity |].
    assert (Hcell : dpi_color (commit_config cfg profile) !!! (i - 1)%nat =
                    sinowealth_color_to_raw (color led)).
    { apply list_lookup_total_correct.
      rewrite commit_config_dpi_color_eq by assumption.
      rewrite lookup_app_l
        by (rewrite length_map, length_take, length_drop; lia).
      rewrite lookup_map, lookup_take, lookup_drop.
      destruct (decide (i - 1 < 6)%nat); [| lia].
      replace (1 + (i - 1))%nat with i by lia.
      now rewrite Hled. }
    rewrite Hcell. reflexivity.
Qed.

Lemma commit_then_read_leds_witness :
  (wf_config (config_of_bytes sample_report) /\
   wf_profile (profile_with_leds sample_leds) /\
   wf_profile blank_profile /\
   read_rc (sample_read
              (commit_sent
                 (sinowealth_commit (device_writing 520) (config_of_bytes sample_report)
                    (profile_with_leds sample_leds)))) = 0 /\
   (1 <= 2 <= 6)%nat) /\
  (exists led',
     leds (read_profile
             (sample_read
                (commit_sent
                   (sinowealth_commit (device_writing 520)
                      (config_of_bytes sample_report)
                      (profile_with_leds sample_leds))))) !! 0%nat = Some led' /\
     mode led' = RATBAG_LED_BREATHING /\ color led' = mkColor 44 128 7) /\
  (exists led',
     leds (read_profile
             (sample_read
                (commit_sent
                   (sinowealth_commit (device_writing 520)
                      (config_of_bytes sample_report)
                      (profile_with_leds sample_leds))))) !! 2%nat = Some led' /\
     mode led' = RATBAG_LED_ON /\ color led' = mkColor 1 2 3).
Proof.
  assert (Hcfg : wf_config (config_of_bytes sample_report))
    by (repeat split; reflexivity).
  assert (Hcount : 0 <= dpi_count (config_of_bytes sample_report) < 16)
    by (vm_compute; split; discriminate || reflexivity).
  assert (Hactive : 0 <= active_dpi (config_of_bytes sample_report) < 16)
    by (vm_compute; split; discriminate || reflexivity).
  assert (Hwf : wf_profile (profile_with_leds sample_leds))
    by (repeat split; reflexivity).
  assert (Hwf2 : wf_profile blank_profile) by (repeat split; reflexivity).
  assert (Hrc : read_rc (sample_read
                           (commit_sent
                              (sinowealth_commit (device_writing 520)
                                 (config_of_bytes sample_report)
                                 (profile_with_leds sample_leds)))) = 0)
    by (vm_compute; reflexivity).
  assert (Hi : (1 <= 2 <= 6)%nat) by lia.
  split; [repeat split; assumption || lia |].
  destruct (commit_then_read_leds (device_writing 520)
              (device_answering SINOWEALTH_CONFIG_SIZE
                 (commit_sent
                    (sinowealth_commit (device_writing 520)
                       (config_of_bytes sample_report)
                       (profile_with_leds sample_leds))))
              _ zero_config _ blank_profile
              Hcfg Hcount Hactive Hwf Hwf2 eq_refl Hrc)
    as [(led & led' & Hled & Hled' & Hmode & Hcolor) Hdpi].
  split.
  - exists led'. split; [exact Hled' |].
    assert (Hled0 : led = set_color (mkColor 300 128 7)
                            (set_mode RATBAG_LED_BREATHING blank_led))
      by (injection Hled as <-; reflexivity).
    subst led. split.
    + etransitivity; [exact Hmode | reflexivity].
    + etransitivity; [exact (Hcolor (or_intror eq_refl)) | reflexivity].
  - destruct (Hdpi 2%nat Hi) as (led2 & led2' & Hled2 & Hled2' & Hmode2 & Hcolor2).
    exists led2'. split; [exact Hled2' |]. split; [exact Hmode2 |].
    assert (Hl : led2 = set_color (mkColor 513 2 3) (set_mode RATBAG_LED_ON blank_led))
      by (injection Hled2 as <-; reflexivity).
    subst led2. etransitivity; [exact Hcolor2 | reflexivity].
Defined.

(** ** Read, then commit *)

Lemma raw_dpi_byte_raw_to_dpi (raw : Z) :
  is_byte raw -> raw_dpi_byte (to_uint (sinowealth_raw_to_dpi raw)) = raw.
Proof.
  intros Hraw. rewrite raw_to_dpi_byte by assumption. unfold is_byte in Hraw.
  destruct (raw_dpi_byte_floor ((raw + 1) * 100) ltac:(lia)) as [-> _].
  rewrite Z.div_mul by lia. lia.
Qed.

(** X19.  Read a report, then commit the profile as it was read.  For each of the
    six slots the enable bit of the report is kept.  The first six raw DPI
    cells are rewritten: the cell of a disabled slot becomes 0xFF, whatever
    it held, and the cell of an enabled slot [i] gets the raw X value the
    report had for that slot, which is the same cell when the report was in
    shared mode and cell [2 * i] when it was in XY-independent mode. *)
Theorem read_then_commit_raw device device' cfg0 profile (i : nat) :
  wf_profile profile ->
  read_rc (sinowealth_read_profile device cfg0 profile) = 0 ->
  wf_config (read_config (sinowealth_read_profile device cfg0 profile)) ->
  Forall is_byte (dpi (read_config (sinowealth_read_profile device cfg0 profile))) ->
  (i < 6)%nat ->
  let cfg := read_config (sinowealth_read_profile device cfg0 profile) in
  let cfg' :=
    commit_drv_config
      (sinowealth_commit device' cfg
         (read_profile (sinowealth_read_profile device cfg0 profile))) in
  Z.testbit (dpi_enabled cfg') (Z.of_nat i) = Z.testbit (dpi_enabled cfg) (Z.of_nat i) /\
  dpi cfg' !! i =
    Some (if Z.testbit (dpi_enabled cfg) (Z.of_nat i) then 0xFF
          else dpi cfg !!! (if Z.testbit (config cfg) 7 then 2 * i else i)%nat).
Proof.
  intros Hwf Hrc Hcfg Hbytes Hi cfg cfg'. subst cfg'.
  rewrite commit_drv_config_eq.
  assert (Hwf' : wf_profile (read_profile (sinowealth_read_profile device cfg0 profile)))
    by (rewrite (proj1 (read_profile_success _ _ _ Hrc));
        now apply read_profile_from_config_wf).
  destruct (lookup_lt_is_Some_2
              (resolutions (read_profile (sinowealth_read_profile device cfg0 profile))) i)
    as [res' Hres'].
  { destruct Hwf' as (Hlen & _). rewrite Hlen. exact Hi. }
  destruct (commit_config_slot cfg _ i res' Hcfg Hwf' Hres') as [Hbyte Hbit].
  rewrite Hbyte, Hbit.
  destruct (read_resolution_lookup device cfg0 profile i res' Hwf Hrc Hres')
    as (res0 & _ & Hidx & _ & ->).
  fold cfg.
  unfold slot_enabled.
  destruct (read_resolution_dpi_xy cfg generate_dpi_list res0) as [-> ->].
  rewrite read_resolution_disabled_bit by (rewrite read_resolution_dpi_index; lia).
  rewrite read_resolution_dpi_index, Hidx.
  destruct (read_resolution_dpi_values cfg res0 Hbytes) as (Hx & _ & Hy & _ & _).
  destruct (Z.testbit (dpi_enabled cfg) (Z.of_nat i)); cbn [set_dpi_xy dpi_x dpi_y].
  - split; reflexivity.
  - replace (truthy (dpi_x (read_resolution_dpi cfg res0))) with true
      by (symmetry; apply truthy_nonzero; lia).
    replace (truthy (dpi_y (read_resolution_dpi cfg res0))) with true
      by (symmetry; apply truthy_nonzero; lia).
    split; [reflexivity |]. f_equal.
    unfold read_resolution_dpi. rewrite truthy_xy_independent, Hidx.
    replace (i * 2)%nat with (2 * i)%nat by lia.
    destruct (Z.testbit (config cfg) 7); cbn [set_dpi_xy dpi_x];
      apply raw_dpi_byte_raw_to_dpi, is_byte_lookup_total; assumption.
Qed.

Lemma read_then_commit_raw_witness :
  (wf_profile blank_profile /\
   read_rc (sample_read sample_report_xy) = 0 /\
   wf_config (read_config (sample_read sample_report_xy)) /\
   Forall is_byte (dpi (read_config (sample_read sample_report_xy))) /\
   (0 < 6)%nat) /\
  dpi (commit_drv_config
         (sinowealth_commit (device_writing 520)
            (read_config (sample_read sample_report_xy))
            (read_profile (sample_read sample_report_xy)))) !! 0%nat = Some 7.
Proof.
  assert (Hwf : wf_profile blank_profile) by (repeat split; reflexivity).
  assert (Hrc : read_rc (sample_read sample_report_xy) = 0) by (vm_compute; reflexivity).
  assert (Hcfg : wf_config (read_config (sample_read sample_report_xy)))
    by (repeat split; reflexivity).
  assert (Hbytes : Forall is_byte (dpi (read_config (sample_read sample_report_xy)))).
  { vm_compute. repeat constructor; discriminate. }
  assert (Hi : (0 < 6)%nat) by lia.
  split; [repeat split; assumption || lia |].
  etransitivity;
    [exact (proj2 (read_then_commit_raw _ (device_writing 520) _ _ 0%nat
                     Hwf Hrc Hcfg Hbytes Hi)) |].
  vm_compute. reflexivity.
Defined.

(** ** Probe *)

(** X20.  The outcome of [sinowealth_probe].  It returns 0 exactly when the
    hidraw node was found and the profile could be read; it then keeps the
    configuration read as driver data.  When no node is found it returns
    the error of the search without creating a profile; when the read fails
    it returns -ENODEV (-19), whatever the read returned.  In both failures
    the driver data is the null pointer afterwards. *)
Theorem probe_outcome find_rc device profile :
  let result := sinowealth_probe find_rc device profile in
  let read :=
    sinowealth_read_profile device (config_of_bytes (zalloc sizeof_config)) profile in
  (probe_rc result = 0 <-> find_rc = 0 /\ read_rc read = 0) /\
  (probe_drv_data result = None <-> probe_rc result <> 0) /\
  (find_rc <> 0 -> probe_rc result = find_rc /\ probe_profile result = None) /\
  (find_rc = 0 -> read_rc read <> 0 -> probe_rc result = -19) /\
  (probe_rc result = 0 ->
   probe_drv_data result = Some (read_config read) /\
   probe_profile result = Some (read_profile read)).
Proof.
  intros result read. subst result read. unfold sinowealth_probe, truthy.
  destruct (Z.eqb_spec find_rc 0) as [Hfind | Hfind]; cbn [negb].
  - destruct (Z.eqb_spec
                (read_rc (sinowealth_read_profile device
                            (config_of_bytes (zalloc sizeof_config)) profile)) 0)
      as [Hread | Hread]; cbn [negb probe_rc probe_drv_data probe_profile];
      unfold ENODEV; intuition (congruence || lia || discriminate).
  - cbn [probe_rc probe_drv_data probe_profile].
    intuition (congruence || lia || discriminate).
Qed.

Lemma probe_outcome_witness :
  (-19 <> 0 /\
   read_rc (sinowealth_read_profile (device_answering 520 sample_report)
              (config_of_bytes (zalloc sizeof_config)) blank_profile) = 0) /\
  probe_rc (sinowealth_probe (-19) (device_answering 520 sample_report) blank_profile)
    = -19 /\
  probe_rc (sinowealth_probe 0 (device_answering 520 sample_report) blank_profile) = 0.
Proof.
  assert (Hfind : -19 <> 0) by discriminate.
  assert (Hread : read_rc (sinowealth_read_profile (device_answering 520 sample_report)
                             (config_of_bytes (zalloc sizeof_config)) blank_profile) = 0)
    by (vm_compute; reflexivity).
  split; [split; assumption |]. split.
  - exact (proj1 (proj1 (proj2 (proj2
             (probe_outcome (-19) (device_answering 520 sample_report) blank_profile)))
             Hfind)).
  - exact (proj2 (proj1
             (probe_outcome 0 (device_answering 520 sample_report) blank_profile))
             (conj eq_refl Hread)).
Defined.
